(** * Social post generator: the generation pipeline, its client and its
      error taxonomy, embedded from [src/agent.py], [src/openai_module.py]
      and [src/exceptions.py]. *)

From Stdlib Require Import ZArith NArith QArith Qcanon List Bool Lia Ascii String DecimalString.
From stdpp Require Import base numbers option list strings gmap.

Local Open Scope Z_scope.

(** ** Python strings

    A Python [str] is a sequence of Unicode code points and [len] counts code
    points, so a string is a list of code points here.  Literals of the source
    are written as UTF-8 text and decoded once. *)

Abbreviation str := (list N).

Definition SPACE : N := 32%N.
Definition NEWLINE : N := 10%N.

Fixpoint decode_utf8 (bs : list N) : str :=
  match bs with
  | [] => []
  | b0 :: r0 =>
    if (b0 <? 128)%N then b0 :: decode_utf8 r0
    else match r0 with
    | [] => []
    | b1 :: r1 =>
      if (b0 <? 224)%N then ((b0 - 192) * 64 + (b1 - 128))%N :: decode_utf8 r1
      else match r1 with
      | [] => []
      | b2 :: r2 =>
        if (b0 <? 240)%N
        then ((b0 - 224) * 4096 + (b1 - 128) * 64 + (b2 - 128))%N :: decode_utf8 r2
        else match r2 with
        | [] => []
        | b3 :: r3 =>
          ((b0 - 240) * 262144 + (b1 - 128) * 4096 + (b2 - 128) * 64 + (b3 - 128))%N
            :: decode_utf8 r3
        end
      end
    end
  end.

Definition py (s : string) : str :=
  decode_utf8 (map N_of_ascii (list_ascii_of_string s)).
Arguments py : simpl never.

(** [str(n)] for an [int]. *)
Definition str_of_int (n : Z) : str :=
  py (NilZero.string_of_int (Z.to_int n)).

(** [Py_UNICODE_ISSPACE]: the characters [str.strip()] removes and the
    regular expression class [\s] matches on [str] patterns. *)
Definition isspace (c : N) : bool :=
  ((9 <=? c) && (c <=? 13) || (28 <=? c) && (c <=? 32)
   || (c =? 133) || (c =? 160) || (c =? 5760)
   || (8192 <=? c) && (c <=? 8202)
   || (c =? 8232) || (c =? 8233) || (c =? 8239) || (c =? 8287) || (c =? 12288))%N.

(** [s.lstrip()], [s.rstrip()] and [s.strip()]. *)
Fixpoint lstrip (s : str) : str :=
  match s with
  | [] => []
  | c :: s' => if isspace c then lstrip s' else s
  end.

Fixpoint rstrip (s : str) : str :=
  match s with
  | [] => []
  | c :: s' =>
    match rstrip s' with
    | [] => if isspace c then [] else [c]
    | r => c :: r
    end
  end.

Definition strip (s : str) : str := rstrip (lstrip s).

(** [re.sub(r'C+', repl, s)] for a character class [C]: every maximal run of
    characters of the class is replaced by [repl].  [in_run] tells that the
    previous character belonged to a run already replaced. *)
Fixpoint re_sub_runs (cls : N -> bool) (repl : str) (in_run : bool) (s : str) : str :=
  match s with
  | [] => []
  | c :: s' =>
    if cls c
    then (if in_run then re_sub_runs cls repl true s'
          else repl ++ re_sub_runs cls repl true s')
    else c :: re_sub_runs cls repl false s'
  end.

Definition re_sub_plus (cls : N -> bool) (repl : str) (s : str) : str :=
  re_sub_runs cls repl false s.

(** [s.startswith(p)]. *)
Fixpoint startswith (p s : str) : bool :=
  match p, s with
  | [], _ => true
  | _ :: _, [] => false
  | a :: p', b :: s' => (a =? b)%N && startswith p' s'
  end.

(** [s.replace(old, new)] for a non-empty [old]: the occurrences of [old] are
    replaced from left to right, without overlap.  [skip] counts the characters
    of a matched occurrence still to be passed over. *)
Fixpoint replace_from (old new : str) (skip : nat) (s : str) : str :=
  match s with
  | [] => []
  | c :: s' =>
    match skip with
    | S k => replace_from old new k s'
    | O =>
      if startswith old s
      then new ++ replace_from old new (Nat.pred (length old)) s'
      else c :: replace_from old new O s'
    end
  end.

Definition replace (old new s : str) : str := replace_from old new O s.

(** [s.rsplit(sep, 1)] for a one-character separator: the text before the last
    separator and, when there is one, the text after it. *)
Fixpoint rsplit1 (sep : N) (s : str) : str * option str :=
  match s with
  | [] => ([], None)
  | c :: s' =>
    match rsplit1 sep s' with
    | (h, Some t) => (c :: h, Some t)
    | (h, None) => if (c =? sep)%N then ([], Some h) else (c :: h, None)
    end
  end.

(** [s.rsplit(sep, 1)[0]]. *)
Definition rsplit1_head (sep : N) (s : str) : str := fst (rsplit1 sep s).

(** ** [SocialPostAgent.clean_text] *)

Definition clean_text (text : str) : str :=
  let text := re_sub_plus isspace (py " ") text in
  let text := re_sub_plus (N.eqb NEWLINE) (py (String "010"%char EmptyString)) text in
  strip text.

(** ** Values and dictionaries

    The dictionaries of the source ([details], the result of [to_dict]) have
    literal keys and values that are strings, integers, booleans or [None]. *)

Inductive pyval :=
| VNone
| VBool (b : bool)
| VInt (n : Z)
| VStr (s : str).

Abbreviation dict := (gmap string pyval).

(** Truthiness of an optional string and of an optional integer, as tested by
    the [if reason:], [if status_code:] and [x or default]. *)
Definition truthy_str (o : option str) : option str :=
  match o with
  | Some (c :: s) => Some (c :: s)
  | _ => None
  end.

Definition truthy_int (o : option Z) : option Z :=
  match o with
  | Some n => if n =? 0 then None else Some n
  | None => None
  end.

Definition opt_str (o : option str) : pyval :=
  match o with
  | Some s => VStr s
  | None => VNone
  end.

(** ** The exceptions of [exceptions.py] *)

Inductive exc_class :=
| ClsSocialPostGeneratorException
| ClsValidationError
| ClsURLValidationError
| ClsURLFetchError
| ClsTextExtractionError
| ClsOpenAIError
| ClsRateLimitError
| ClsPostGenerationError
| ClsConfigurationError.

(** [_default_error_code], resolved along the class hierarchy. *)
Definition _default_error_code (c : exc_class) : str :=
  match c with
  | ClsSocialPostGeneratorException => py "INTERNAL_ERROR"
  | ClsValidationError | ClsURLValidationError => py "VALIDATION_ERROR"
  | ClsURLFetchError => py "URL_FETCH_ERROR"
  | ClsTextExtractionError => py "TEXT_EXTRACTION_ERROR"
  | ClsOpenAIError => py "OPENAI_ERROR"
  | ClsRateLimitError => py "RATE_LIMIT_ERROR"
  | ClsPostGenerationError => py "POST_GENERATION_ERROR"
  | ClsConfigurationError => py "CONFIGURATION_ERROR"
  end.

(** [_default_user_message], resolved along the class hierarchy. *)
Definition _default_user_message (c : exc_class) : str :=
  match c with
  | ClsSocialPostGeneratorException =>
    py "Произошла ошибка при обработке запроса. Администратор уже уведомлен о проблеме."
  | ClsValidationError | ClsURLValidationError =>
    py "Некорректные входные данные. Пожалуйста, проверьте правильность введенной информации."
  | ClsURLFetchError =>
    py "Не удалось загрузить страницу. Проверьте правильность URL и доступность сайта."
  | ClsTextExtractionError =>
    py "На странице не найдено достаточно текста для генерации поста. Попробуйте другой URL."
  | ClsOpenAIError =>
    py "Временные проблемы с генерацией. Мы уже работаем над решением. Попробуйте позже."
  | ClsRateLimitError =>
    py "Превышен лимит запросов. Пожалуйста, подождите немного перед следующей попыткой."
  | ClsPostGenerationError =>
    py "Не удалось сгенерировать пост. Пожалуйста, попробуйте другой URL или стиль."
  | ClsConfigurationError =>
    py "Ошибка конфигурации приложения. Пожалуйста, обратитесь к администратору."
  end.

(** An instance of [SocialPostGeneratorException] or of a subclass. *)
Record app_exception := {
  exn_class : exc_class;
  message : str;
  user_message : str;
  error_code : str;
  details : dict
}.

(** An exception of any other class: [type(e).__name__] and [str(e)]. *)
Record foreign_exception := {
  type_name : str;
  text : str
}.

Inductive exception :=
| App (e : app_exception)
| Foreign (e : foreign_exception).

Definition exception_type_name (e : exception) : str :=
  match e with
  | App a =>
    match exn_class a with
    | ClsSocialPostGeneratorException => py "SocialPostGeneratorException"
    | ClsValidationError => py "ValidationError"
    | ClsURLValidationError => py "URLValidationError"
    | ClsURLFetchError => py "URLFetchError"
    | ClsTextExtractionError => py "TextExtractionError"
    | ClsOpenAIError => py "OpenAIError"
    | ClsRateLimitError => py "RateLimitError"
    | ClsPostGenerationError => py "PostGenerationError"
    | ClsConfigurationError => py "ConfigurationError"
    end
  | Foreign f => type_name f
  end.

(** [str(e)]: the base class passes [message] to [Exception.__init__]. *)
Definition exception_str (e : exception) : str :=
  match e with
  | App a => message a
  | Foreign f => text f
  end.

(** [SocialPostGeneratorException.__init__], run for an object of class [c]. *)
Definition SocialPostGeneratorException_init (c : exc_class) (message : str)
    (user_message error_code : option str) (details : option dict) : app_exception :=
  {| exn_class := c;
     message := message;
     user_message := default (_default_user_message c) (truthy_str user_message);
     error_code := default (_default_error_code c) (truthy_str error_code);
     details := default ∅ details |}.

Definition URLValidationError (url : str) (reason : option str) : app_exception :=
  let message := py "Некорректный URL: " ++ url in
  let message :=
    match truthy_str reason with
    | Some r => message ++ py " (" ++ r ++ py ")"
    | None => message
    end in
  let user_message :=
    py "Некорректный URL. Пожалуйста, укажите полный URL с протоколом (http:// или https://)" in
  SocialPostGeneratorException_init ClsURLValidationError message (Some user_message) None
    (Some (<["reason" := opt_str reason]> (<["url" := VStr url]> ∅))).

Definition URLFetchError (url : str) (reason : option str) (status_code : option Z)
    : app_exception :=
  let message := py "Ошибка загрузки " ++ url in
  let message :=
    match truthy_int status_code with
    | Some c => message ++ py " (HTTP " ++ str_of_int c ++ py ")"
    | None => message
    end in
  let message :=
    match truthy_str reason with
    | Some r => message ++ py ": " ++ r
    | None => message
    end in
  let details : dict := <["url" := VStr url]> ∅ in
  let details :=
    match truthy_int status_code with
    | Some c => <["status_code" := VInt c]> details
    | None => details
    end in
  let details :=
    match truthy_str reason with
    | Some r => <["reason" := VStr r]> details
    | None => details
    end in
  SocialPostGeneratorException_init ClsURLFetchError message None None (Some details).

Definition TextExtractionError (url : str) (reason : option str) : app_exception :=
  let message := py "Не удалось извлечь текст из " ++ url in
  let message :=
    match truthy_str reason with
    | Some r => message ++ py ": " ++ r
    | None => message
    end in
  SocialPostGeneratorException_init ClsTextExtractionError message None None
    (Some (<["reason" := opt_str reason]> (<["url" := VStr url]> ∅))).

(** [OpenAIError.__init__], run for an object of class [c] ([RateLimitError]
    reaches it through [super().__init__]). *)
Definition OpenAIError_init (c : exc_class) (reason : str) (api_error : option exception)
    (retry_count : Z) : app_exception :=
  let message := py "Ошибка OpenAI API: " ++ reason in
  let message :=
    match api_error with
    | Some e =>
      message ++ py " (" ++ exception_type_name e ++ py ": " ++ exception_str e ++ py ")"
    | None => message
    end in
  let details : dict :=
    <["retry_count" := VInt retry_count]> (<["reason" := VStr reason]> ∅) in
  let details :=
    match api_error with
    | Some e =>
      <["api_error_message" := VStr (exception_str e)]>
        (<["api_error_type" := VStr (exception_type_name e)]> details)
    | None => details
    end in
  SocialPostGeneratorException_init c message None None (Some details).

Definition OpenAIError (reason : str) (api_error : option exception) (retry_count : Z)
    : app_exception :=
  OpenAIError_init ClsOpenAIError reason api_error retry_count.

Definition RateLimitError (retry_after : option Z) : app_exception :=
  let reason := py "Превышен rate limit" in
  let reason :=
    match truthy_int retry_after with
    | Some n => reason ++ py ", повторите через " ++ str_of_int n ++ py " секунд"
    | None => reason
    end in
  let self := OpenAIError_init ClsRateLimitError reason None 0 in
  match truthy_int retry_after with
  | Some n =>
    {| exn_class := exn_class self; message := message self;
       user_message := user_message self; error_code := error_code self;
       details := <["retry_after" := VInt n]> (details self) |}
  | None => self
  end.

Definition PostGenerationError (reason : str) (url style : option str) : app_exception :=
  let message := py "Ошибка генерации поста: " ++ reason in
  let details : dict := <["reason" := VStr reason]> ∅ in
  let details :=
    match truthy_str url with
    | Some u => <["url" := VStr u]> details
    | None => details
    end in
  let details :=
    match truthy_str style with
    | Some s => <["style" := VStr s]> details
    | None => details
    end in
  SocialPostGeneratorException_init ClsPostGenerationError message None None (Some details).

Definition ConfigurationError (parameter reason : str) : app_exception :=
  let message := py "Ошибка конфигурации '" ++ parameter ++ py "': " ++ reason in
  SocialPostGeneratorException_init ClsConfigurationError message None None
    (Some (<["reason" := VStr reason]> (<["parameter" := VStr parameter]> ∅))).

(** [SocialPostGeneratorException.to_dict]: in
    [{"success": ..., "error": ..., "error_code": ..., **self.details}] the
    entries of [details] come last, so they win over the three fixed keys. *)
Definition to_dict (self : app_exception) : dict :=
  details self ∪
  <["success" := VBool false]>
    (<["error" := VStr (user_message self)]>
      (<["error_code" := VStr (error_code self)]> ∅)).

Definition handle_exception (e : exception) : dict :=
  match e with
  | App a => to_dict a
  | Foreign _ =>
    <["success" := VBool false]>
      (<["error" := VStr (py "Произошла непредвиденная ошибка. Администратор уже уведомлен.")]>
        (<["error_code" := VStr (py "INTERNAL_ERROR")]> ∅))
  end.

(** ** The generation client of [openai_module.py] *)

(** The counters and the model name of an [OpenAIClient]. *)
Record OpenAIClient := {
  total_requests : Z;
  total_tokens : Z;
  failed_requests : Z;
  model : str
}.

(** [OpenAIClient.__init__] leaves the three counters at zero. *)
Definition new_client (model : str) : OpenAIClient :=
  {| total_requests := 0; total_tokens := 0; failed_requests := 0; model := model |}.

(** What a run can observe besides the client: how many times
    [chat.completions.create] was called, and the delays given to
    [time.sleep], oldest first. *)
Record World := {
  client : OpenAIClient;
  api_calls : nat;
  slept : list Z
}.

Definition new_world (model : str) : World :=
  {| client := new_client model; api_calls := O; slept := [] |}.

(** The exceptions [generate_text] tells apart, in the order of its [except]
    clauses; [Unexpected] is any exception none of the first four catches,
    also one raised while the response is read. *)
Inductive provider_error_kind :=
| RateLimit
| Timeout
| Connection
| ApiError
| Unexpected.

Record provider_error := {
  pe_kind : provider_error_kind;
  pe_exception : foreign_exception;
  pe_retry_after : option Z
}.

(** The outcome of one call of [chat.completions.create]: the content of the
    first choice with the reported [usage.total_tokens], or an exception. *)
Inductive api_outcome :=
| Completed (content : str) (usage : option Z)
| Failed (e : provider_error).

Abbreviation chat_message := (str * str)%type.

(** The provider: the outcome of the [k]-th call, given the model and the
    messages sent. *)
Abbreviation provider_t := (nat -> str -> list chat_message -> api_outcome).

Inductive result (A : Type) :=
| Ok (a : A)
| Raise (e : exception).
Arguments Ok {A} a.
Arguments Raise {A} e.

(** Computations that read and update the world and may raise. *)
Definition M (A : Type) : Type := World -> result A * World.

Definition ret {A} (a : A) : M A := fun w => (Ok a, w).

Definition raise {A} (e : exception) : M A := fun w => (Raise e, w).

Definition bind {A B} (m : M A) (k : A -> M B) : M B :=
  fun w =>
    match m w with
    | (Ok a, w') => k a w'
    | (Raise e, w') => (Raise e, w')
    end.

Notation "x <- m ;; k" := (bind m (fun x => k))
  (at level 100, m at next level, right associativity).
Notation "m ;;; k" := (bind m (fun _ => k))
  (at level 100, right associativity).

(** [try: m except Exception as e: h e]. *)
Definition try_except {A} (m : M A) (h : exception -> M A) : M A :=
  fun w =>
    match m w with
    | (Ok a, w') => (Ok a, w')
    | (Raise e, w') => h e w'
    end.

Definition lift {A} (r : result A) : M A := fun w => (r, w).

Definition update_client (f : OpenAIClient -> OpenAIClient) : M unit :=
  fun w => (Ok tt, {| client := f (client w); api_calls := api_calls w; slept := slept w |}).

Definition incr_total_requests : M unit :=
  update_client (fun c =>
    {| total_requests := total_requests c + 1; total_tokens := total_tokens c;
       failed_requests := failed_requests c; model := model c |}).

Definition add_total_tokens (tokens_used : Z) : M unit :=
  update_client (fun c =>
    {| total_requests := total_requests c; total_tokens := total_tokens c + tokens_used;
       failed_requests := failed_requests c; model := model c |}).

Definition incr_failed_requests : M unit :=
  update_client (fun c =>
    {| total_requests := total_requests c; total_tokens := total_tokens c;
       failed_requests := failed_requests c + 1; model := model c |}).

Definition time_sleep (delay : Z) : M unit :=
  fun w => (Ok tt, {| client := client w; api_calls := api_calls w; slept := slept w ++ [delay] |}).

Section Client.

Variable provider : provider_t.

Definition chat_completions_create (messages : list chat_message) : M api_outcome :=
  fun w =>
    (Ok (provider (api_calls w) (model (client w)) messages),
     {| client := client w; api_calls := S (api_calls w); slept := slept w |}).

(** The body of [for attempt in range(max_retries)], from iteration [attempt]
    on, with [todo] iterations left, followed by the code after the loop. *)
Fixpoint generate_text_loop (max_retries : Z) (messages : list chat_message)
    (todo : nat) (attempt : Z) (last_error : option provider_error) : M str :=
  match todo with
  | O =>
    incr_failed_requests ;;;
    raise (App (OpenAIError (py "Все попытки исчерпаны")
                  (Foreign <$> (pe_exception <$> last_error)) max_retries))
  | S todo' =>
    outcome <- chat_completions_create messages ;;
    match outcome with
    | Completed content usage =>
      let generated_text := strip content in
      incr_total_requests ;;;
      match usage with
      | Some tokens_used => add_total_tokens tokens_used
      | None => ret tt
      end ;;;
      ret generated_text
    | Failed e =>
      let retry_or_raise (reason : str) : M str :=
        if attempt <? max_retries - 1
        then time_sleep (2 ^ attempt) ;;;
             generate_text_loop max_retries messages todo' (attempt + 1) (Some e)
        else incr_failed_requests ;;;
             raise (App (OpenAIError reason (Some (Foreign (pe_exception e))) (attempt + 1)))
      in
      match pe_kind e with
      | RateLimit =>
        incr_failed_requests ;;;
        raise (App (RateLimitError (pe_retry_after e)))
      | Timeout => retry_or_raise (py "Таймаут запроса")
      | Connection => retry_or_raise (py "Ошибка соединения")
      | ApiError =>
        incr_failed_requests ;;;
        raise (App (OpenAIError (text (pe_exception e))
                      (Some (Foreign (pe_exception e))) (attempt + 1)))
      | Unexpected => retry_or_raise (py "Неожиданная ошибка")
      end
    end
  end.

(** The [messages] of [generate_text]: pairs of a role and a content. *)
Definition chat_messages (prompt : str) (system_prompt : option str) : list chat_message :=
  match truthy_str system_prompt with
  | Some sp => [(py "system", sp)]
  | None => []
  end ++ [(py "user", prompt)].

Definition generate_text (prompt : str) (system_prompt : option str) (max_retries : Z)
    : M str :=
  let messages := chat_messages prompt system_prompt in
  generate_text_loop max_retries messages (Z.to_nat max_retries) 0 None.

(** A sequence of [generate_text] invocations on one client, each with its
    own arguments, and the outcomes in order. *)
Fixpoint run_invocations (invocations : list (str * option str * Z)) (w : World)
    : list (result str) * World :=
  match invocations with
  | [] => ([], w)
  | (prompt, system_prompt, max_retries) :: rest =>
    let (r, w') := generate_text prompt system_prompt max_retries w in
    let (rs, w'') := run_invocations rest w' in
    (r :: rs, w'')
  end.

End Client.

Definition is_ok {A} (r : result A) : bool :=
  match r with
  | Ok _ => true
  | Raise _ => false
  end.

(** The numbers of invocations that returned and that raised. *)
Definition succeeded {A} (rs : list (result A)) : Z :=
  Z.of_nat (length (List.filter is_ok rs)).

Definition terminally_failed {A} (rs : list (result A)) : Z :=
  Z.of_nat (length (List.filter (fun r => negb (is_ok r)) rs)).

(** The value of [get_statistics()].  The source computes [success_rate] in
    binary floating point; here it is the exact rational, which is the same
    number whenever the quotient is exact. *)
Record Statistics := {
  st_total_requests : Z;
  st_failed_requests : Z;
  st_success_rate : Qc;
  st_total_tokens : Z;
  st_model : str
}.

(** Rounding to the nearest integer, ties to even. *)
Definition round_half_even (q : Qc) : Z :=
  let n := Qnum q in
  let d := Zpos (Qden q) in
  let f := n `div` d in
  let r := n `mod` d in
  if 2 * r <? d then f
  else if d <? 2 * r then f + 1
  else if Z.even f then f else f + 1.

(** [round(x, 2)]. *)
Definition round2 (x : Qc) : Qc :=
  (Qc_of_Z (round_half_even (x * Qc_of_Z 100)) / Qc_of_Z 100)%Qc.

Definition get_statistics (self : OpenAIClient) : Statistics :=
  let success_rate : Qc :=
    if 0 <? total_requests self
    then (Qc_of_Z (total_requests self - failed_requests self)
          / Qc_of_Z (total_requests self) * Qc_of_Z 100)%Qc
    else Qc_of_Z 0 in
  {| st_total_requests := total_requests self;
     st_failed_requests := failed_requests self;
     st_success_rate := round2 success_rate;
     st_total_tokens := total_tokens self;
     st_model := model self |}.

(** ** The agent of [agent.py] *)

Record Style := {
  style_id : str;
  style_name : str;
  style_description : str;
  style_emoji : str;
  system_prompt : str;
  user_prompt_template : str
}.

(** [SocialPostAgent.STYLES], in the order of the source. *)
Definition STYLES : list (str * Style) := [
  (py "ироничный",
   {| style_id := py "ironic";
      style_name := py "Ироничный";
      style_description := py "Легкая ирония и самоирония, умный юмор";
      style_emoji := py "😏";
      system_prompt :=
        py "Ты креативный автор постов для социальных сетей. "
        ++ py "Твой стиль - легкая ирония, самоирония и умный юмор. "
        ++ py "Ты пишешь увлекательно, но не переходишь грань в сарказм. "
        ++ py "Используешь эмодзи умеренно и к месту.";
      user_prompt_template :=
        py "На основе этого текста напиши короткий ироничный пост "
        ++ py "для социальных сетей (максимум 800 символов). "
        ++ py "Пост должен быть остроумным, интересным и цепляющим внимание."
        ++ [NEWLINE; NEWLINE] ++ py "Текст: {text}" |});
  (py "профессиональный",
   {| style_id := py "professional";
      style_name := py "Профессиональный";
      style_description := py "Деловой и информативный стиль";
      style_emoji := py "💼";
      system_prompt :=
        py "Ты профессиональный контент-менеджер. "
        ++ py "Твой стиль - деловой, информативный и структурированный. "
        ++ py "Ты пишешь четко, по существу, подчеркиваешь ключевые моменты. "
        ++ py "Избегаешь лишних эмоций, но остаешься интересным.";
      user_prompt_template :=
        py "На основе этого текста напиши короткий профессиональный пост "
        ++ py "для социальных сетей (максимум 800 символов). "
        ++ py "Пост должен быть информативным, структурированным и полезным."
        ++ [NEWLINE; NEWLINE] ++ py "Текст: {text}" |});
  (py "мотивационный",
   {| style_id := py "motivational";
      style_name := py "Мотивационный";
      style_description := py "Вдохновляющий и побуждающий к действию";
      style_emoji := py "🚀";
      system_prompt :=
        py "Ты вдохновляющий коуч и мотиватор. "
        ++ py "Твой стиль - энергичный, позитивный и побуждающий к действию. "
        ++ py "Ты видишь возможности везде и умеешь заряжать людей энтузиазмом. "
        ++ py "Используешь мощные метафоры и призывы к действию.";
      user_prompt_template :=
        py "На основе этого текста напиши короткий мотивационный пост "
        ++ py "для социальных сетей (максимум 800 символов). "
        ++ py "Пост должен вдохновлять, мотивировать и побуждать к действию."
        ++ [NEWLINE; NEWLINE] ++ py "Текст: {text}" |});
  (py "юмористический",
   {| style_id := py "humorous";
      style_name := py "Юмористический";
      style_description := py "Веселый и развлекательный контент";
      style_emoji := py "😄";
      system_prompt :=
        py "Ты талантливый комедийный автор. "
        ++ py "Твой стиль - легкий юмор, неожиданные повороты и игра слов. "
        ++ py "Ты умеешь рассмешить, не оскорбляя, и развлечь, оставаясь умным. "
        ++ py "Твои шутки всегда уместны и добродушны.";
      user_prompt_template :=
        py "На основе этого текста напиши короткий юмористический пост "
        ++ py "для социальных сетей (максимум 800 символов). "
        ++ py "Пост должен быть смешным, легким и поднимающим настроение."
        ++ [NEWLINE; NEWLINE] ++ py "Текст: {text}" |});
  (py "образовательный",
   {| style_id := py "educational";
      style_name := py "Образовательный";
      style_description := py "Обучающий контент с полезными фактами";
      style_emoji := py "📚";
      system_prompt :=
        py "Ты опытный преподаватель и популяризатор знаний. "
        ++ py "Твой стиль - понятный, структурированный и познавательный. "
        ++ py "Ты умеешь объяснять сложное простыми словами. "
        ++ py "Всегда даешь практическую ценность и конкретные знания.";
      user_prompt_template :=
        py "На основе этого текста напиши короткий образовательный пост "
        ++ py "для социальных сетей (максимум 800 символов). "
        ++ py "Пост должен учить, объяснять и давать полезную информацию."
        ++ [NEWLINE; NEWLINE] ++ py "Текст: {text}" |});
  (py "эмоциональный",
   {| style_id := py "emotional";
      style_name := py "Эмоциональный";
      style_description := py "Трогательный, чувственный и поэтичный стиль";
      style_emoji := py "❤️";
      system_prompt :=
        py "Ты чувствительный автор, умеющий затрагивать душу. "
        ++ py "Твой стиль - эмоциональный, искренний, глубокий и поэтичный. "
        ++ py "Ты пишешь о том, что важно, что трогает сердца и вызывает отклик. "
        ++ py "Используешь образные сравнения, метафоры и эмоциональные триггеры. "
        ++ py "Твои слова вдохновляют и создают эмоциональную связь с читателем.";
      user_prompt_template :=
        py "На основе этого текста напиши короткий эмоциональный пост "
        ++ py "для социальных сетей (максимум 800 символов). "
        ++ py "Пост должен трогать, вызывать чувства и резонировать с читателем."
        ++ [NEWLINE; NEWLINE] ++ py "Текст: {text}" |})
].

Definition DEFAULT_STYLE : str := py "ироничный".

(** [style in self.STYLES] and [self.STYLES[style]]. *)
Definition STYLES_contains (style : str) : bool :=
  existsb (fun kv => bool_decide (fst kv = style)) STYLES.

Definition STYLES_getitem (style : str) : result Style :=
  match find (fun kv => bool_decide (fst kv = style)) STYLES with
  | Some kv => Ok (snd kv)
  | None => Raise (Foreign {| type_name := py "KeyError"; text := style |})
  end.

(** The part of [config.settings] the agent reads. *)
Record Settings := {
  max_post_length : Z;
  min_text_length : Z
}.

(** The part of the result of [urlparse] the agent reads. *)
Record ParseResult := {
  scheme : str;
  netloc : str
}.

(** [len(s)]. *)
Definition len (s : str) : Z := Z.of_nat (length s).

(** [s[:n]]. *)
Definition slice_to (n : Z) (s : str) : str :=
  if 0 <=? n then take (Z.to_nat n) s
  else take (length s - Z.to_nat (- n)) s.

(** [template.format(text=text)] for a template whose only replacement field
    is [{text}], as all those of [STYLES] are. *)
Definition format_text (template text : str) : str :=
  replace (py "{text}") text template.

Section Agent.

(** What the agent takes from its configuration and from the libraries and
    services it calls: the settings, [str.lower], [validators.url],
    [urlparse], the outcome of [fetch_html] for a URL, the outcome of the
    BeautifulSoup part of [extract_text] for a page (the text of the main
    content, or the exception raised), and the provider. *)
Variable settings : Settings.
Variable lower : str -> str.
Variable validators_url : str -> bool.
Variable urlparse : str -> ParseResult.
Variable fetch_html : str -> result str.
Variable soup_get_text : str -> foreign_exception + str.
Variable provider : provider_t.

Definition validate_url (url : str) : result str :=
  if bool_decide (url = []) || bool_decide (strip url = [])
  then Raise (App (URLValidationError url (Some (py "URL пустой"))))
  else
    let url := strip url in
    if negb (validators_url url)
    then Raise (App (URLValidationError url (Some (py "Невалидный формат URL"))))
    else
      let parsed := urlparse url in
      if negb (bool_decide (scheme parsed = py "http")
               || bool_decide (scheme parsed = py "https"))
      then Raise (App (URLValidationError url
                         (Some (py "Неподдерживаемый протокол: " ++ scheme parsed))))
      else if bool_decide (netloc parsed = [])
      then Raise (App (URLValidationError url (Some (py "Отсутствует доменное имя"))))
      else Ok url.

Definition extract_text (html : str) : result str :=
  match soup_get_text html with
  | inr text => Ok (clean_text text)
  | inl e =>
    Raise (App (TextExtractionError (py "unknown") (Some (exception_str (Foreign e)))))
  end.

Definition validate_text_length (text url : str) : result unit :=
  if len text <? min_text_length settings
  then Raise (App (TextExtractionError url
                     (Some (py "Текста недостаточно: " ++ str_of_int (len text)
                            ++ py " символов"))))
  else Ok tt.

Definition validate_style (style : option str) : str :=
  match truthy_str style with
  | None => DEFAULT_STYLE
  | Some style =>
    let style := strip (lower style) in
    if STYLES_contains style then style
    else
      match find (fun kv => bool_decide (style_id (snd kv) = style)) STYLES with
      | Some kv => fst kv
      | None => DEFAULT_STYLE
      end
  end.

(** Step 3 of [generate_post]: [post_max_length]. *)
Definition post_max_length_of (max_length : option Z) : Z :=
  let post_max_length := default (max_post_length settings) (truthy_int max_length) in
  if post_max_length <? 400 then 400
  else if 4000 <? post_max_length then 4000
  else post_max_length.

(** Step 6 of [generate_post]: the text given to the prompt. *)
Definition limit_prompt_text (text : str) : str :=
  let max_text_length := 3000 in
  if max_text_length <? len text then slice_to max_text_length text ++ py "..." else text.

(** Step 7 of [generate_post]: the user prompt. *)
Definition render_user_prompt (style_config : Style) (post_max_length : Z) (text : str)
    : str :=
  let user_prompt := format_text (user_prompt_template style_config) text in
  replace (py "максимум 800 символов")
    (py "максимум " ++ str_of_int post_max_length ++ py " символов") user_prompt.

(** Step 9 of [generate_post]: the returned post. *)
Definition finish_post (post_max_length : Z) (post : str) : str :=
  let post := strip post in
  if post_max_length <? len post
  then rsplit1_head SPACE (slice_to post_max_length post) ++ py "..."
  else post.

Definition generate_post (url : str) (style : option str) (max_length : option Z)
    : M str :=
  url <- lift (validate_url url) ;;
  let style := validate_style style in
  style_config <- lift (STYLES_getitem style) ;;
  let post_max_length := post_max_length_of max_length in
  html <- lift (fetch_html url) ;;
  text <- lift (extract_text html) ;;
  lift (validate_text_length text url) ;;;
  let text := limit_prompt_text text in
  let user_prompt := render_user_prompt style_config post_max_length text in
  post <- try_except
            (generate_text provider user_prompt (Some (system_prompt style_config)) 3)
            (fun e =>
               raise (App (PostGenerationError (exception_str e) (Some url) (Some style)))) ;;
  ret (finish_post post_max_length post).

End Agent.

(** ** The rest of the client *)

(** [OpenAIClient.validate_response]. *)
Definition validate_response (text : str) (min_length : Z) : bool :=
  if bool_decide (text = []) || bool_decide (strip text = []) then false
  else if len (strip text) <? min_length then false
  else true.

Section ClientProbe.

Variable provider : provider_t.

(** [OpenAIClient.check_health]: one call with the message [test]; any
    exception gives [False]. *)
Definition check_health : M bool :=
  outcome <- chat_completions_create provider [(py "user", py "test")] ;;
  match outcome with
  | Completed _ _ => ret true
  | Failed _ => ret false
  end.

End ClientProbe.

(** ** The rest of the agent *)

(** What [requests.get] gives: a response, of which [fetch_html] reads the
    status code, the [content-length] header and the text, or an exception,
    told apart as the [except] clauses of [fetch_html] do. *)
Record http_response := {
  resp_status_code : Z;
  resp_content_length : option str;
  resp_text : str
}.

Inductive requests_error_kind :=
| ReqTimeout
| ReqConnectionError
| ReqTooManyRedirects
| ReqOther.

Inductive requests_outcome :=
| Responded (response : http_response)
| RequestFailed (kind : requests_error_kind) (e : foreign_exception).

Section Fetcher.

(** [settings.max_page_size], the exchange [requests.get] performs, [int] on
    a header value (the number, or the [ValueError] raised), and the truth
    value of a response object, which the handler of [HTTPError] tests. *)
Variable max_page_size : Z.
Variable requests_get : str -> requests_outcome.
Variable parse_int : str -> foreign_exception + Z.
Variable response_bool : http_response -> bool.

(** The handler of [requests.exceptions.HTTPError]. *)
Definition http_error_handler (url : str) (response : http_response) : result str :=
  let status_code :=
    if response_bool response then Some (resp_status_code response) else None in
  let reason :=
    match status_code with
    | Some 404 => py "Страница не найдена (404)"
    | Some 403 => py "Доступ запрещен (403)"
    | Some 500 => py "Ошибка сервера (500)"
    | Some c => py "HTTP ошибка " ++ str_of_int c
    | None => py "HTTP ошибка None"
    end in
  Raise (App (URLFetchError url (Some reason) status_code)).

(** The handler of [Exception], which also catches what the body of the
    [try] raises itself. *)
Definition unexpected_fetch_error (url : str) (e : exception) : result str :=
  Raise (App (URLFetchError url (Some (exception_str e)) None)).

Definition fetch_html (url : str) : result str :=
  match requests_get url with
  | RequestFailed ReqTimeout _ =>
    Raise (App (URLFetchError url (Some (py "Превышено время ожидания")) None))
  | RequestFailed ReqConnectionError _ =>
    Raise (App (URLFetchError url (Some (py "Не удалось установить соединение")) None))
  | RequestFailed ReqTooManyRedirects _ =>
    Raise (App (URLFetchError url (Some (py "Слишком много редиректов")) None))
  | RequestFailed ReqOther e => unexpected_fetch_error url (Foreign e)
  | Responded response =>
    let too_large (content_length : str) :=
      unexpected_fetch_error url
        (App (URLFetchError url
                (Some (py "Страница слишком большая: " ++ content_length ++ py " байт"))
                (Some (resp_status_code response)))) in
    let after_size_check :=
      if (400 <=? resp_status_code response) && (resp_status_code response <? 600)
      then http_error_handler url response
      else Ok (resp_text response) in
    match truthy_str (resp_content_length response) with
    | Some content_length =>
      match parse_int content_length with
      | inl e => unexpected_fetch_error url (Foreign e)
      | inr n => if max_page_size <? n then too_large content_length else after_size_check
      end
    | None => after_size_check
    end
  end.

End Fetcher.

(** [SocialPostAgent.get_available_styles]. *)
Definition get_available_styles : list dict :=
  map (fun kv =>
         let style_data := snd kv in
         <["emoji" := VStr (style_emoji style_data)]>
           (<["description" := VStr (style_description style_data)]>
             (<["name" := VStr (style_name style_data)]>
               (<["id" := VStr (style_id style_data)]> ∅))))
      STYLES.

(** ** The web server of [app.py] *)

(** [SimpleRateLimiter]: per key, the times of the requests let through.
    Times are counted in microseconds, as [datetime] does. *)
Record SimpleRateLimiter := {
  max_requests : Z;
  window_seconds : Z;
  requests : gmap str (list Z)
}.

(** [SimpleRateLimiter.__init__]. *)
Definition SimpleRateLimiter_init (max_requests window_seconds : Z) : SimpleRateLimiter :=
  {| max_requests := max_requests; window_seconds := window_seconds; requests := ∅ |}.

(** [timedelta(seconds=n)], in microseconds. *)
Definition timedelta_seconds (n : Z) : Z := n * 1000000.

(** [SimpleRateLimiter.is_allowed], at the time [now] that [datetime.now()]
    gives. *)
Definition is_allowed (self : SimpleRateLimiter) (now : Z) (key : str)
    : bool * SimpleRateLimiter :=
  let cutoff := now - timedelta_seconds (window_seconds self) in
  let kept :=
    List.filter (fun req_time => cutoff <? req_time) (default [] (requests self !! key)) in
  if max_requests self <=? Z.of_nat (length kept)
  then (false,
        {| max_requests := max_requests self; window_seconds := window_seconds self;
           requests := <[key := kept]> (requests self) |})
  else (true,
        {| max_requests := max_requests self; window_seconds := window_seconds self;
           requests := <[key := kept ++ [now]]> (requests self) |}).

(** A sequence of [is_allowed] calls on one limiter, each with its time and
    key, and the answers in order. *)
Fixpoint serve (self : SimpleRateLimiter) (calls : list (Z * str)) : list bool :=
  match calls with
  | [] => []
  | (now, key) :: rest =>
    let (answer, self') := is_allowed self now key in
    answer :: serve self' rest
  end.

(** The same, with the limiter returned. *)
Fixpoint serve_state (self : SimpleRateLimiter) (calls : list (Z * str))
    : SimpleRateLimiter :=
  match calls with
  | [] => self
  | (now, key) :: rest => serve_state (is_allowed self now key).2 rest
  end.



Section Endpoint.

(** The agent's method [generate_post] and the text of
    [datetime.utcnow().isoformat()]. *)
Variable agent_generate_post : str -> option str -> option Z -> M str.
Variable utcnow_isoformat : str.


End Endpoint.

(** ** The settings of [config.py] *)

Definition COMMA : N := 44%N.

(** [s.split(sep)] for a one-character separator. *)
Fixpoint split_char (sep : N) (s : str) : list str :=
  match s with
  | [] => [[]]
  | c :: s' =>
    if (c =? sep)%N then [] :: split_char sep s'
    else
      match split_char sep s' with
      | [] => [[c]]
      | h :: t => (c :: h) :: t
      end
  end.

(** [sep.join(items)]. *)
Fixpoint join (sep : str) (items : list str) : str :=
  match items with
  | [] => []
  | [x] => x
  | x :: rest => x ++ sep ++ join sep rest
  end.

(** [Settings.get_allowed_origins_list], of the setting [allowed_origins]. *)
Definition get_allowed_origins_list (allowed_origins : str) : list str :=
  map strip (split_char COMMA allowed_origins).

(** ** Predicates used in the statements *)

(** Every whitespace character of [s] is a space and no two whitespace
    characters are adjacent; [prev] tells that the character before [s] is a
    whitespace character. *)
Fixpoint single_spaced (prev : bool) (s : str) : bool :=
  match s with
  | [] => true
  | c :: s' =>
    if isspace c then negb prev && (c =? SPACE)%N && single_spaced true s'
    else single_spaced false s'
  end.

(** The failures of the taxonomy: what the constructors of its seven kinds
    build, each with the machine-readable code of its kind. *)
Inductive taxonomy_failure : app_exception -> str -> Prop :=
| tf_URLValidation url reason :
    taxonomy_failure (URLValidationError url reason) (py "VALIDATION_ERROR")
| tf_URLFetch url reason status_code :
    taxonomy_failure (URLFetchError url reason status_code) (py "URL_FETCH_ERROR")
| tf_TextExtraction url reason :
    taxonomy_failure (TextExtractionError url reason) (py "TEXT_EXTRACTION_ERROR")
| tf_PostGeneration reason url style :
    taxonomy_failure (PostGenerationError reason url style) (py "POST_GENERATION_ERROR")
| tf_UpstreamAPI reason api_error retry_count :
    taxonomy_failure (OpenAIError reason api_error retry_count) (py "OPENAI_ERROR")
| tf_RateLimited retry_after :
    taxonomy_failure (RateLimitError retry_after) (py "RATE_LIMIT_ERROR")
| tf_Configuration parameter reason :
    taxonomy_failure (ConfigurationError parameter reason) (py "CONFIGURATION_ERROR").

(** The kinds of provider error [generate_text] retries, with the reason it
    gives when the retries are used up. *)
Definition retry_reason (k : provider_error_kind) : option str :=
  match k with
  | Timeout => Some (py "Таймаут запроса")
  | Connection => Some (py "Ошибка соединения")
  | Unexpected => Some (py "Неожиданная ошибка")
  | RateLimit | ApiError => None
  end.

(** The world after one more call of the provider, after a sleep, and after a
    terminal failure or a success has been counted. *)
Definition called (w : World) : World :=
  {| client := client w; api_calls := S (api_calls w); slept := slept w |}.

Definition after_sleep (delay : Z) (w : World) : World :=
  {| client := client w; api_calls := api_calls w; slept := slept w ++ [delay] |}.

Definition failure_counted (w : World) : World :=
  {| client :=
       {| total_requests := total_requests (client w);
          total_tokens := total_tokens (client w);
          failed_requests := failed_requests (client w) + 1;
          model := model (client w) |};
     api_calls := api_calls w; slept := slept w |}.

Definition success_counted (usage : option Z) (w : World) : World :=
  {| client :=
       {| total_requests := total_requests (client w) + 1;
          total_tokens := total_tokens (client w) + default 0 usage;
          failed_requests := failed_requests (client w);
          model := model (client w) |};
     api_calls := api_calls w; slept := slept w |}.

(** One invocation of [generate_text] counts once: a return adds one to
    [total_requests] and nothing to [failed_requests], a raise does the
    opposite. *)
Definition counted_once (w : World) (rw : result str * World) : Prop :=
  match rw with
  | (Ok _, w') =>
    total_requests (client w') = total_requests (client w) + 1
    ∧ failed_requests (client w') = failed_requests (client w)
  | (Raise _, w') =>
    total_requests (client w') = total_requests (client w)
    ∧ failed_requests (client w') = failed_requests (client w) + 1
  end.

(** The success rate the statistics law asks for after [n] successful and
    [m] failed generations: [n / (n + m) * 100] rounded to two decimals, and
    [0] when there was none. *)
Definition expected_success_rate (n m : Z) : Qc :=
  if n + m =? 0 then Qc_of_Z 0
  else round2 (Qc_of_Z n / Qc_of_Z (n + m) * Qc_of_Z 100)%Qc.

(** ** Test doubles: a provider that answers from a script, and the errors it
    raises *)

Definition scripted (script : list api_outcome) (otherwise : api_outcome) : provider_t :=
  fun k _ _ => default otherwise (script !! k).

Definition timeout_error : provider_error :=
  {| pe_kind := Timeout;
     pe_exception := {| type_name := py "APITimeoutError"; text := py "Request timed out." |};
     pe_retry_after := None |}.

Definition rate_limit_error (retry_after : option Z) : provider_error :=
  {| pe_kind := RateLimit;
     pe_exception := {| type_name := py "RateLimitError"; text := py "Rate limit reached" |};
     pe_retry_after := retry_after |}.

(** The default settings of [config.py]. *)
Definition default_settings : Settings :=
  {| max_post_length := 800; min_text_length := 100 |}.

(** [str.lower] on the Latin and Cyrillic capital letters, for the examples. *)
Definition lower_basic (s : str) : str :=
  map (fun c =>
         if (65 <=? c)%N && (c <=? 90)%N then (c + 32)%N
         else if (1040 <=? c)%N && (c <=? 1071)%N then (c + 32)%N
         else if (1024 <=? c)%N && (c <=? 1039)%N then (c + 80)%N
         else c) s.

(** A page every step before the generation accepts: the URL is valid, the
    fetch returns a body and the main content of the body is [text]. *)
Definition accept_url : str -> bool := fun _ => true.

Definition parse_https : str -> ParseResult :=
  fun _ => {| scheme := py "https"; netloc := py "example.com" |}.

Definition fetch_page : str -> result str := fun _ => Ok (py "<html><body>...</body></html>").

Definition page_text (text : str) : str -> foreign_exception + str := fun _ => inr text.

(** Two generated texts longer than 400 characters: 399 letters, a space and
    two more letters; and 401 letters without a space. *)
Definition long_post : str := repeat 97%N 399 ++ py " bb".

Definition unbroken_post : str := repeat 97%N 401.

(** The delays of [j] retries in a row, the first at iteration [attempt]. *)
Definition backoff_delays (attempt : Z) (j : nat) : list Z :=
  map (fun i => 2 ^ (attempt + Z.of_nat i)) (seq 0 j).

(** The exceptions [generate_text] raises itself. *)
Definition client_failure (e : exception) : Prop :=
  match e with
  | App a => exn_class a = ClsOpenAIError ∨ exn_class a = ClsRateLimitError
  | Foreign _ => False
  end.

(** A text without whitespace at either end. *)
Definition trimmed (s : str) : Prop :=
  (∀ c, head s = Some c -> isspace c = false)
  ∧ (∀ c, last s = Some c -> isspace c = false).

(** The times of a sequence of calls never go back, starting from [last]. *)
Fixpoint clock_nondecreasing (last : Z) (calls : list (Z * str)) : Prop :=
  match calls with
  | [] => True
  | (now, _) :: rest => last ≤ now ∧ clock_nondecreasing now rest
  end.

(** Admission by counting: a request is let through when fewer than
    [max_requests] requests of its key were let through during the
    [window_seconds] before it; [admitted] lists the requests let through so
    far, none ever forgotten. *)
Fixpoint admit_by_count (max_requests window_seconds : Z) (admitted : list (Z * str))
    (calls : list (Z * str)) : list bool :=
  match calls with
  | [] => []
  | (now, key) :: rest =>
    let recent :=
      List.filter
        (fun r => bool_decide (r.2 = key)
                  && (now - timedelta_seconds window_seconds <? r.1))
        admitted in
    if max_requests <=? Z.of_nat (length recent)
    then false :: admit_by_count max_requests window_seconds admitted rest
    else true :: admit_by_count max_requests window_seconds (admitted ++ [(now, key)]) rest
  end.

(** What the limiter remembers is enough: for every cutoff a later call can
    use, the times kept under a key that are after the cutoff are the times
    after the cutoff at which requests of the key were let through. *)
Definition limiter_tracks (self : SimpleRateLimiter) (admitted : list (Z * str))
    (last : Z) : Prop :=
  ∀ key cutoff,
    last - timedelta_seconds (window_seconds self) ≤ cutoff ->
    List.filter (fun t => cutoff <? t) (default [] (requests self !! key))
    = List.filter (fun t => cutoff <? t)
        (List.map fst (List.filter (fun r => bool_decide (r.2 = key)) admitted)).

(** The user-facing message of the failures of a class: the one
    [URLValidationError] passes to the base class, the default of the class
    for the others. *)
Definition class_user_message (c : exc_class) : str :=
  match c with
  | ClsURLValidationError =>
    py "Некорректный URL. Пожалуйста, укажите полный URL с протоколом (http:// или https://)"
  | c => _default_user_message c
  end.

(** [old] cannot start at the head of [s], whatever follows [s]: a character
    of [s] differs from the one of [old] at its place. *)
Fixpoint mismatch_within (old s : str) : bool :=
  match old, s with
  | a :: old', b :: s' => negb (a =? b)%N || mismatch_within old' s'
  | _, _ => false
  end.

(** [old] starts nowhere in [s], whatever follows [s]. *)
Fixpoint no_match_in (old s : str) : bool :=
  match s with
  | [] => true
  | _ :: s' => mismatch_within old s && no_match_in old s'
  end.

(** [s.find(old)]. *)
Fixpoint str_find (old s : str) : option nat :=
  if startswith old s then Some O
  else
    match s with
    | [] => None
    | _ :: s' => S <$> str_find old s'
    end.

(** The phrase of the templates that [generate_post] rewrites, and what it
    puts in its place. *)
Definition default_length_phrase : str := py "максимум 800 символов".

Definition length_phrase (post_max_length : Z) : str :=
  py "максимум " ++ str_of_int post_max_length ++ py " символов".

(** The parts of a template around the phrase and before the field
    [{text}], when the template is made of them and neither the phrase nor
    the field starts anywhere else. *)
Definition template_frame (template : str) : option (str * str) :=
  match str_find default_length_phrase template with
  | Some i =>
    let before := take i template in
    let after :=
      drop (i + length default_length_phrase) (take (length template - 6) template) in
    if bool_decide (template = before ++ default_length_phrase ++ after ++ py "{text}")
       && no_match_in default_length_phrase before
       && no_match_in default_length_phrase after
       && no_match_in (py "{text}") (before ++ default_length_phrase ++ after)
    then Some (before, after)
    else None
  | None => None
  end.

(** * Properties *)

(** ** Whitespace normalisation *)

Lemma py_space : py " " = [SPACE].
Proof. reflexivity. Qed.

Lemma py_newline : py (String "010"%char EmptyString) = [NEWLINE].
Proof. reflexivity. Qed.

Lemma isspace_SPACE : isspace SPACE = true.
Proof. reflexivity. Qed.

Lemma isspace_NEWLINE : isspace NEWLINE = true.
Proof. reflexivity. Qed.

Lemma re_sub_runs_single_spaced b s :
  single_spaced b (re_sub_runs isspace [SPACE] b s) = true.
Proof.
  revert b. induction s as [|c s IH]; intros b; simpl; [done|].
  destruct (isspace c) eqn:Hc.
  - destruct b; simpl; [apply IH|].
    rewrite ?isspace_SPACE, IH. reflexivity.
  - simpl. rewrite Hc. apply IH.
Qed.

Lemma single_spaced_weaken b s :
  single_spaced b s = true -> single_spaced false s = true.
Proof.
  destruct s as [|c s]; simpl; [done|].
  destruct (isspace c); [|done].
  destruct b; simpl; [discriminate|done].
Qed.

Lemma single_spaced_whitespace b s c :
  single_spaced b s = true -> c ∈ s -> isspace c = true -> c = SPACE.
Proof.
  revert b. induction s as [|a s IH]; intros b Hs Hin Hc.
  - by apply elem_of_nil in Hin.
  - simpl in Hs. apply elem_of_cons in Hin as [->|Hin].
    + rewrite Hc in Hs. apply andb_true_iff in Hs as [Hs _].
      apply andb_true_iff in Hs as [_ Hs]. by apply N.eqb_eq in Hs.
    + destruct (isspace a).
      * apply andb_true_iff in Hs as [_ Hs]. eauto.
      * eauto.
Qed.

Lemma single_spaced_no_newline b s :
  single_spaced b s = true -> NEWLINE ∉ s.
Proof.
  intros Hs Hin.
  pose proof (single_spaced_whitespace _ _ _ Hs Hin isspace_NEWLINE) as H.
  discriminate H.
Qed.

Lemma single_spaced_adjacent b s i x y :
  single_spaced b s = true ->
  s !! i = Some x -> s !! S i = Some y ->
  ¬ (isspace x = true ∧ isspace y = true).
Proof.
  revert b i. induction s as [|a s IH]; intros b i Hs Hx Hy [Wx Wy]; [done|].
  simpl in Hs. destruct i as [|i].
  - simpl in Hx, Hy. injection Hx as ->. rewrite Wx in Hs.
    apply andb_true_iff in Hs as [_ Hs].
    destruct s as [|a' s]; [done|]. simpl in Hy. injection Hy as ->.
    simpl in Hs. rewrite Wy in Hs. discriminate Hs.
  - simpl in Hx, Hy. destruct (isspace a).
    + apply andb_true_iff in Hs as [_ Hs]. eapply IH; eauto.
    + eapply IH; eauto.
Qed.

Lemma re_sub_runs_absent cls repl b s :
  (∀ c, c ∈ s -> cls c = false) -> re_sub_runs cls repl b s = s.
Proof.
  revert b. induction s as [|c s IH]; intros b H; simpl; [done|].
  rewrite (H c) by (apply elem_of_cons; by left).
  f_equal. apply IH. intros c' Hc'. apply H. apply elem_of_cons. by right.
Qed.

Lemma re_sub_runs_fixed b s :
  single_spaced b s = true -> re_sub_runs isspace [SPACE] b s = s.
Proof.
  revert b. induction s as [|c s IH]; intros b Hs; simpl; [done|].
  simpl in Hs. destruct (isspace c).
  - apply andb_true_iff in Hs as [Hs Hs'].
    apply andb_true_iff in Hs as [Hb Hc]. apply N.eqb_eq in Hc as ->.
    destruct b; [discriminate|]. simpl. by rewrite IH.
  - by rewrite IH.
Qed.

Lemma lstrip_single_spaced b s :
  single_spaced b s = true -> single_spaced false (lstrip s) = true.
Proof.
  revert b. induction s as [|c s IH]; intros b Hs; simpl; [done|].
  destruct (isspace c) eqn:Hc.
  - simpl in Hs. rewrite Hc in Hs. apply andb_true_iff in Hs as [_ Hs]. eauto.
  - by eapply single_spaced_weaken.
Qed.

Lemma rstrip_single_spaced b s :
  single_spaced b s = true -> single_spaced b (rstrip s) = true.
Proof.
  revert b. induction s as [|c s IH]; intros b Hs; simpl; [done|].
  simpl in Hs. destruct (isspace c) eqn:Hc.
  - apply andb_true_iff in Hs as [Hs Hs']. apply IH in Hs'.
    destruct (rstrip s) as [|r rs]; [done|].
    simpl. rewrite Hc. simpl in Hs'. by rewrite Hs, Hs'.
  - apply IH in Hs. destruct (rstrip s) as [|r rs]; simpl; by rewrite Hc.
Qed.

Lemma lstrip_head s c : head (lstrip s) = Some c -> isspace c = false.
Proof.
  induction s as [|a s IH]; simpl; [done|].
  destruct (isspace a) eqn:Ha; [done|].
  simpl. by intros [= <-].
Qed.

Lemma rstrip_head s c : head (rstrip s) = Some c -> head s = Some c.
Proof.
  destruct s as [|a s]; simpl; [done|].
  destruct (rstrip s); [|done].
  by destruct (isspace a).
Qed.

Lemma rstrip_last s c : last (rstrip s) = Some c -> isspace c = false.
Proof.
  induction s as [|a s IH]; simpl; [done|].
  destruct (rstrip s) as [|r rs].
  - destruct (isspace a) eqn:Ha; [done|]. simpl. by intros [= <-].
  - done.
Qed.

Lemma lstrip_fixed s :
  (∀ c, head s = Some c -> isspace c = false) -> lstrip s = s.
Proof.
  destruct s as [|a s]; simpl; [done|].
  intros H. by rewrite (H a).
Qed.

Lemma rstrip_fixed s :
  (∀ c, last s = Some c -> isspace c = false) -> rstrip s = s.
Proof.
  induction s as [|a s IH]; simpl; [done|]. intros H.
  destruct s as [|a' s].
  - simpl. by rewrite (H a).
  - rewrite IH by (intros c Hc; apply H; done). done.
Qed.

Lemma clean_text_single_spaced s : single_spaced false (clean_text s) = true.
Proof.
  unfold clean_text, re_sub_plus, strip. rewrite py_space, py_newline.
  pose proof (re_sub_runs_single_spaced false s) as H1.
  rewrite (re_sub_runs_absent (N.eqb NEWLINE)).
  - apply rstrip_single_spaced. by eapply lstrip_single_spaced.
  - intros c Hc. apply N.eqb_neq. intros <-.
    by eapply single_spaced_no_newline.
Qed.

(** C10. The text [clean_text] returns holds no newline (its only whitespace
    characters are spaces), no two adjacent whitespace characters and no
    whitespace at either end, and cleaning it again changes nothing. *)
Theorem C10_clean_text_normal_and_idempotent (s : str) :
  (NEWLINE ∉ clean_text s)
  ∧ (∀ c, c ∈ clean_text s -> isspace c = true -> c = SPACE)
  ∧ (∀ i x y, clean_text s !! i = Some x -> clean_text s !! S i = Some y ->
       ¬ (isspace x = true ∧ isspace y = true))
  ∧ (∀ c, head (clean_text s) = Some c -> isspace c = false)
  ∧ (∀ c, last (clean_text s) = Some c -> isspace c = false)
  ∧ clean_text (clean_text s) = clean_text s.
Proof.
  pose proof (clean_text_single_spaced s) as Hs.
  assert (Hhead : ∀ c, head (clean_text s) = Some c -> isspace c = false).
  { intros c Hc. unfold clean_text, strip in Hc.
    apply rstrip_head in Hc. by apply lstrip_head in Hc. }
  assert (Hlast : ∀ c, last (clean_text s) = Some c -> isspace c = false).
  { intros c Hc. unfold clean_text, strip in Hc. by apply rstrip_last in Hc. }
  assert (Hnl : NEWLINE ∉ clean_text s) by (by eapply single_spaced_no_newline).
  repeat split; try done.
  - intros c Hc Hw. by eapply single_spaced_whitespace.
  - intros i x y Hx Hy. by eapply single_spaced_adjacent.
  - set (t := clean_text s) in *. unfold clean_text at 1, re_sub_plus, strip.
    rewrite py_space, py_newline.
    rewrite (re_sub_runs_fixed false t Hs).
    rewrite (re_sub_runs_absent (N.eqb NEWLINE)).
    + rewrite (lstrip_fixed t Hhead). by apply rstrip_fixed.
    + intros c Hc. apply N.eqb_neq. by intros <-.
Qed.

Example clean_text_example :
  clean_text (py "  Hello,   world ") = py "Hello, world"
  ∧ clean_text [SPACE; 72%N; NEWLINE; NEWLINE; 9%N; 105%N; 160%N] = py "H i".
Proof. vm_compute. done. Qed.

(** ** URL validation *)

(** C7. [validate_url] raises [URLValidationError] for an input that is empty
    or blank, that [validators.url] rejects, whose scheme is neither [http]
    nor [https], or whose host is empty; every other input is returned with
    its surrounding whitespace removed and nothing else changed. *)
Theorem C7_validate_url_rejects_or_trims
    (validators_url : str -> bool) (urlparse : str -> ParseResult) (url : str) :
  let rejected :=
    url = [] ∨ strip url = []
    ∨ validators_url (strip url) = false
    ∨ (scheme (urlparse (strip url)) ≠ py "http"
       ∧ scheme (urlparse (strip url)) ≠ py "https")
    ∨ netloc (urlparse (strip url)) = [] in
  (rejected ->
     ∃ u reason, validate_url validators_url urlparse url
                 = Raise (App (URLValidationError u reason))
                 ∧ exn_class (URLValidationError u reason) = ClsURLValidationError
                 ∧ error_code (URLValidationError u reason) = py "VALIDATION_ERROR")
  ∧ (¬ rejected -> validate_url validators_url urlparse url = Ok (strip url))
  ∧ (∀ r, validate_url validators_url urlparse url = Ok r -> r = strip url).
Proof.
  cbv zeta. unfold validate_url.
  destruct (bool_decide (url = [])) eqn:E1; simpl.
  { apply bool_decide_eq_true in E1. split_and!; [eauto 10| tauto | done]. }
  apply bool_decide_eq_false in E1.
  destruct (bool_decide (strip url = [])) eqn:E2; simpl.
  { apply bool_decide_eq_true in E2. split_and!; [eauto 10| tauto | done]. }
  apply bool_decide_eq_false in E2.
  destruct (validators_url (strip url)) eqn:E3; simpl; cycle 1.
  { split_and!; [eauto 10| tauto | done]. }
  destruct (bool_decide (scheme (urlparse (strip url)) = py "http")) eqn:E4;
    destruct (bool_decide (scheme (urlparse (strip url)) = py "https")) eqn:E5;
    simpl;
    try apply bool_decide_eq_true in E4; try apply bool_decide_eq_false in E4;
    try apply bool_decide_eq_true in E5; try apply bool_decide_eq_false in E5.
  4: { split_and!; [eauto 10| tauto | done]. }
  all: destruct (bool_decide (netloc (urlparse (strip url)) = [])) eqn:E6;
    [ apply bool_decide_eq_true in E6; split_and!; [eauto 10| tauto | done]
    | apply bool_decide_eq_false in E6; split_and!;
      [ intros [?|[?|[?|[[? ?]|?]]]]; congruence
      | done
      | by intros r [= <-] ] ].
Qed.

Example validate_url_trims :
  validate_url accept_url parse_https (py "  https://example.com ")
  = Ok (py "https://example.com").
Proof. vm_compute. done. Qed.

Example validate_url_blank :
  validate_url accept_url parse_https (py "   ")
  = Raise (App (URLValidationError (py "   ") (Some (py "URL пустой")))).
Proof. vm_compute. done. Qed.

Example validate_url_ftp :
  validate_url accept_url
    (fun _ => {| scheme := py "ftp"; netloc := py "example.com" |})
    (py "ftp://example.com")
  = Raise (App (URLValidationError (py "ftp://example.com")
                  (Some (py "Неподдерживаемый протокол: ftp")))).
Proof. vm_compute. done. Qed.

(** ** Style resolution *)

Lemma STYLES_getitem_key k cfg :
  (k, cfg) ∈ STYLES -> ∃ cfg', STYLES_getitem k = Ok cfg'.
Proof.
  unfold STYLES_getitem. generalize STYLES. intros l Hin.
  induction l as [|[k' c'] l IH]; [by apply elem_of_nil in Hin|].
  simpl. case_bool_decide; [eauto|].
  apply elem_of_cons in Hin as [[= -> ->]|Hin]; [done|]. auto.
Qed.

Lemma STYLES_contains_getitem k :
  STYLES_contains k = true -> ∃ cfg, STYLES_getitem k = Ok cfg.
Proof.
  unfold STYLES_contains, STYLES_getitem. generalize STYLES. intros l.
  induction l as [|[k' c'] l IH]; simpl; [done|].
  case_bool_decide; simpl; eauto.
Qed.

Lemma find_elem_of {A} (p : A -> bool) (l : list A) (x : A) :
  find p l = Some x -> x ∈ l ∧ p x = true.
Proof.
  induction l as [|a l IH]; simpl; [done|].
  destruct (p a) eqn:Ha.
  - intros [= <-]. split; [apply elem_of_cons; by left|done].
  - intros H. apply IH in H as [??]. split; [apply elem_of_cons; by right|done].
Qed.

Lemma find_none_elem_of {A} (p : A -> bool) (l : list A) :
  find p l = None -> ∀ x, x ∈ l -> p x = false.
Proof.
  induction l as [|a l IH]; simpl; intros H x Hx; [by apply elem_of_nil in Hx|].
  destruct (p a) eqn:Ha; [done|].
  apply elem_of_cons in Hx as [->|Hx]; auto.
Qed.

Lemma DEFAULT_STYLE_getitem : ∃ cfg, STYLES_getitem DEFAULT_STYLE = Ok cfg.
Proof. apply STYLES_contains_getitem. vm_compute. reflexivity. Qed.

Lemma style_ids_unique_check :
  forallb (fun a =>
    forallb (fun b =>
      implb (bool_decide (style_id (snd a) = style_id (snd b)))
            (bool_decide (fst a = fst b))) STYLES) STYLES = true.
Proof. vm_compute. reflexivity. Qed.

Lemma style_ids_unique k1 c1 k2 c2 :
  (k1, c1) ∈ STYLES -> (k2, c2) ∈ STYLES -> style_id c1 = style_id c2 -> k1 = k2.
Proof.
  intros H1 H2 Hid. pose proof style_ids_unique_check as H.
  rewrite forallb_forall in H. apply list_elem_of_In, H in H1.
  rewrite forallb_forall in H1. apply list_elem_of_In, H1 in H2.
  simpl in H2. rewrite (bool_decide_eq_true_2 _ Hid) in H2. simpl in H2.
  by apply bool_decide_eq_true in H2.
Qed.

Lemma validate_style_in_table lower style :
  ∃ cfg, STYLES_getitem (validate_style lower style) = Ok cfg.
Proof.
  unfold validate_style. destruct (truthy_str style) as [s|];
    [|apply DEFAULT_STYLE_getitem].
  destruct (STYLES_contains (strip (lower s))) eqn:Hc;
    [by apply STYLES_contains_getitem|].
  destruct (find _ STYLES) as [[k cfg]|] eqn:Hf; [|apply DEFAULT_STYLE_getitem].
  apply find_elem_of in Hf as [Hin _]. by eapply STYLES_getitem_key.
Qed.

(** C8. [validate_style] is total and its result is always a key of [STYLES],
    so the lookup that follows it cannot fail.  An absent or empty request
    gives the default; otherwise the request is lower-cased and trimmed, a
    key of the table is returned as it is, an identifier gives its key, and
    anything else gives the default. *)
Theorem C8_validate_style_falls_back (lower : str -> str) (style : option str) :
  (∃ cfg, STYLES_getitem (validate_style lower style) = Ok cfg)
  ∧ (style = None ∨ style = Some [] -> validate_style lower style = DEFAULT_STYLE)
  ∧ (∀ s, style = Some s -> s ≠ [] ->
       let requested := strip (lower s) in
       (STYLES_contains requested = true ->
          validate_style lower style = requested)
       ∧ (∀ k cfg, STYLES_contains requested = false ->
            (k, cfg) ∈ STYLES -> style_id cfg = requested ->
            validate_style lower style = k)
       ∧ (STYLES_contains requested = false ->
            (∀ k cfg, (k, cfg) ∈ STYLES -> style_id cfg ≠ requested) ->
            validate_style lower style = DEFAULT_STYLE)).
Proof.
  split_and!.
  - apply validate_style_in_table.
  - by intros [->| ->].
  - intros s -> Hs requested. unfold validate_style.
    destruct s as [|c s]; [done|]. cbn [truthy_str]. fold requested.
    split_and!.
    + by intros ->.
    + intros k cfg -> Hin Hid.
      destruct (find _ STYLES) as [[k' cfg']|] eqn:Hf.
      * apply find_elem_of in Hf as [Hin' Hp]. simpl in Hp.
        apply bool_decide_eq_true in Hp. simpl.
        eapply style_ids_unique; eauto. congruence.
      * eapply find_none_elem_of in Hf; [|exact Hin]. simpl in Hf.
        apply bool_decide_eq_false in Hf. done.
    + intros -> Hno.
      destruct (find _ STYLES) as [[k' cfg']|] eqn:Hf; [|done].
      apply find_elem_of in Hf as [Hin' Hp]. simpl in Hp.
      apply bool_decide_eq_true in Hp. by apply Hno in Hin'.
Qed.

Example validate_style_by_identifier :
  validate_style lower_basic (Some (py "  IRONIC ")) = py "ироничный"
  ∧ validate_style lower_basic (Some (py "Educational")) = py "образовательный".
Proof. vm_compute. done. Qed.

Example validate_style_by_key :
  validate_style lower_basic (Some (py "Юмористический")) = py "юмористический".
Proof. vm_compute. done. Qed.

Example validate_style_unknown :
  validate_style lower_basic (Some (py "sarcastic")) = DEFAULT_STYLE
  ∧ validate_style lower_basic (Some (py "   ")) = DEFAULT_STYLE
  ∧ validate_style lower_basic None = DEFAULT_STYLE.
Proof. vm_compute. done. Qed.

(** ** The maximum post length *)

(** C5, as stated, fails: a requested length of [0] is below 400, yet
    [max_length or settings.max_post_length] takes it for an absent one, and
    an absent length gives the configured default only after clamping. *)
Lemma C5_zero_and_small_default_not_nearest_bound :
  post_max_length_of {| max_post_length := 800; min_text_length := 100 |} (Some 0) = 800
  ∧ post_max_length_of {| max_post_length := 800; min_text_length := 100 |} (Some 0) ≠ 400
  ∧ post_max_length_of {| max_post_length := 200; min_text_length := 100 |} None = 400
  ∧ post_max_length_of {| max_post_length := 200; min_text_length := 100 |} None ≠ 200.
Proof. vm_compute. split_and!; congruence. Qed.

(** C5, amended. A requested length other than [0] is used as it is inside
    [400, 4000], and replaced by the nearest bound outside; when no length is
    requested, the configured default is used after the same clamping (so as
    it is when it lies in [400, 4000]).  The result always lies in
    [400, 4000]. *)
Theorem C5_post_max_length_clamped (settings : Settings) (max_length : option Z) :
  let clamp n := if n <? 400 then 400 else if 4000 <? n then 4000 else n in
  (∀ n, max_length = Some n -> n ≠ 0 -> n < 400 ->
     post_max_length_of settings max_length = 400)
  ∧ (∀ n, max_length = Some n -> 4000 < n ->
     post_max_length_of settings max_length = 4000)
  ∧ (∀ n, max_length = Some n -> 400 ≤ n ≤ 4000 ->
     post_max_length_of settings max_length = n)
  ∧ (max_length = None ->
     post_max_length_of settings max_length = clamp (max_post_length settings))
  ∧ (max_length = None -> 400 ≤ max_post_length settings ≤ 4000 ->
     post_max_length_of settings max_length = max_post_length settings)
  ∧ 400 ≤ post_max_length_of settings max_length ≤ 4000.
Proof.
  cbv zeta. unfold post_max_length_of, truthy_int.
  split_and!.
  - intros n -> Hn Hlt. destruct (Z.eqb_spec n 0); [done|]. simpl.
    destruct (Z.ltb_spec n 400); [done|lia].
  - intros n -> Hgt. destruct (Z.eqb_spec n 0); [lia|]. simpl.
    destruct (Z.ltb_spec n 400); [lia|]. destruct (Z.ltb_spec 4000 n); [done|lia].
  - intros n -> Hn. destruct (Z.eqb_spec n 0); [lia|]. simpl.
    destruct (Z.ltb_spec n 400); [lia|]. destruct (Z.ltb_spec 4000 n); [lia|done].
  - by intros ->.
  - intros -> Hd. simpl.
    destruct (Z.ltb_spec (max_post_length settings) 400); [lia|].
    destruct (Z.ltb_spec 4000 (max_post_length settings)); [lia|done].
  - set (d := default _ _). destruct (Z.ltb_spec d 400); [lia|].
    destruct (Z.ltb_spec 4000 d); lia.
  - set (d := default _ _). destruct (Z.ltb_spec d 400); [lia|].
    destruct (Z.ltb_spec 4000 d); lia.
Qed.

(** ** Conversion of failures to dictionaries *)

Lemma to_dict_lookups (e : app_exception) :
  details e !! "success" = None ->
  details e !! "error" = None ->
  details e !! "error_code" = None ->
  to_dict e !! "success" = Some (VBool false)
  ∧ to_dict e !! "error" = Some (VStr (user_message e))
  ∧ to_dict e !! "error_code" = Some (VStr (error_code e))
  ∧ (∀ k, k ≠ "success" -> k ≠ "error" -> k ≠ "error_code" ->
       to_dict e !! k = details e !! k).
Proof.
  intros H1 H2 H3. unfold to_dict. split_and!.
  - rewrite lookup_union_r by done. by rewrite lookup_insert_eq.
  - rewrite lookup_union_r by done.
    rewrite lookup_insert_ne by done. by rewrite lookup_insert_eq.
  - rewrite lookup_union_r by done.
    rewrite !lookup_insert_ne by done. by rewrite lookup_insert_eq.
  - intros k ???. rewrite lookup_union_l; [done|].
    rewrite !lookup_insert_ne by done. apply lookup_empty.
Qed.

Ltac fresh_key :=
  repeat match goal with
         | |- context [match ?o with Some _ => _ | None => _ end] => destruct o
         end;
  cbn [details SocialPostGeneratorException_init from_option id];
  rewrite ?lookup_insert_ne by done; apply lookup_empty.

Lemma taxonomy_details_fresh e code :
  taxonomy_failure e code ->
  details e !! "success" = None
  ∧ details e !! "error" = None
  ∧ details e !! "error_code" = None.
Proof.
  destruct 1; split_and!;
    unfold URLValidationError, URLFetchError, TextExtractionError,
      PostGenerationError, OpenAIError, RateLimitError, OpenAIError_init,
      ConfigurationError;
    fresh_key.
Qed.

Lemma taxonomy_error_code e code :
  taxonomy_failure e code -> error_code e = code.
Proof.
  destruct 1; try reflexivity.
  unfold RateLimitError. by destruct (truthy_int retry_after).
Qed.

(** C9. The dictionary of a failure of a taxonomy kind is its details
    extended with [success] mapped to [False], [error] to the user-facing
    message of the failure and [error_code] to the code of its kind (the
    details never hold one of these three keys); [handle_exception] gives
    that dictionary.  For
    an exception of any other class [handle_exception] gives one fixed
    dictionary of three keys with the code [INTERNAL_ERROR], the same whatever
    the exception and its message are. *)
Theorem C9_failures_convert_to_flat_mapping :
  (∀ e code, taxonomy_failure e code ->
     handle_exception (App e) = to_dict e
     ∧ to_dict e
       = <["success" := VBool false]>
           (<["error" := VStr (user_message e)]>
             (<["error_code" := VStr code]> (details e)))
     ∧ to_dict e !! "success" = Some (VBool false)
     ∧ to_dict e !! "error" = Some (VStr (user_message e))
     ∧ to_dict e !! "error_code" = Some (VStr code)
     ∧ (∀ k, k ≠ "success" -> k ≠ "error" -> k ≠ "error_code" ->
          to_dict e !! k = details e !! k))
  ∧ (∀ f f' : foreign_exception,
       handle_exception (Foreign f) = handle_exception (Foreign f')
       ∧ handle_exception (Foreign f) !! "success" = Some (VBool false)
       ∧ handle_exception (Foreign f) !! "error_code" = Some (VStr (py "INTERNAL_ERROR"))
       ∧ handle_exception (Foreign f) !! "error"
         = Some (VStr (py "Произошла непредвиденная ошибка. Администратор уже уведомлен."))
       ∧ dom (handle_exception (Foreign f))
         = ({["success"; "error"; "error_code"]} : gset string)).
Proof.
  split.
  - intros e code He.
    destruct (taxonomy_details_fresh e code He) as (H1 & H2 & H3).
    destruct (to_dict_lookups e H1 H2 H3) as (L1 & L2 & L3 & L4).
    rewrite (taxonomy_error_code e code He) in L3. split_and!; try done.
    apply map_eq. intros k.
    destruct (decide (k = "success")) as [->|N1]; [by rewrite lookup_insert_eq|].
    rewrite lookup_insert_ne by done.
    destruct (decide (k = "error")) as [->|N2]; [by rewrite lookup_insert_eq|].
    rewrite lookup_insert_ne by done.
    destruct (decide (k = "error_code")) as [->|N3]; [by rewrite lookup_insert_eq|].
    rewrite lookup_insert_ne by done. by apply L4.
  - intros f f'. unfold handle_exception. split_and!.
    + reflexivity.
    + by rewrite lookup_insert_eq.
    + rewrite !lookup_insert_ne by done. by rewrite lookup_insert_eq.
    + rewrite lookup_insert_ne by done. by rewrite lookup_insert_eq.
    + rewrite !dom_insert_L, dom_empty_L. set_solver.
Qed.

(** ** One iteration of the retry loop *)

Section ClientFacts.

Variable provider : provider_t.
Variable max_retries : Z.
Variable messages : list chat_message.

Lemma loop_done attempt last_error w :
  generate_text_loop provider max_retries messages O attempt last_error w
  = (Raise (App (OpenAIError (py "Все попытки исчерпаны")
                   (Foreign <$> (pe_exception <$> last_error)) max_retries)),
     failure_counted w).
Proof. reflexivity. Qed.

Lemma loop_completed todo attempt last_error w content usage :
  provider (api_calls w) (model (client w)) messages = Completed content usage ->
  generate_text_loop provider max_retries messages (S todo) attempt last_error w
  = (Ok (strip content), success_counted usage (called w)).
Proof.
  intros H. cbn [generate_text_loop]. unfold bind at 1, chat_completions_create.
  rewrite H. destruct usage as [t|]; cbn.
  - reflexivity.
  - unfold success_counted, called. cbn. by rewrite Z.add_0_r.
Qed.

Lemma loop_rate_limited todo attempt last_error w e :
  provider (api_calls w) (model (client w)) messages = Failed e ->
  pe_kind e = RateLimit ->
  generate_text_loop provider max_retries messages (S todo) attempt last_error w
  = (Raise (App (RateLimitError (pe_retry_after e))), failure_counted (called w)).
Proof.
  intros H Hk. cbn [generate_text_loop]. unfold bind at 1, chat_completions_create.
  rewrite H. cbn beta iota. rewrite Hk. reflexivity.
Qed.

Lemma loop_api_error todo attempt last_error w e :
  provider (api_calls w) (model (client w)) messages = Failed e ->
  pe_kind e = ApiError ->
  generate_text_loop provider max_retries messages (S todo) attempt last_error w
  = (Raise (App (OpenAIError (text (pe_exception e))
                   (Some (Foreign (pe_exception e))) (attempt + 1))),
     failure_counted (called w)).
Proof.
  intros H Hk. cbn [generate_text_loop]. unfold bind at 1, chat_completions_create.
  rewrite H. cbn beta iota. rewrite Hk. reflexivity.
Qed.

Lemma loop_retry todo attempt last_error w e reason :
  provider (api_calls w) (model (client w)) messages = Failed e ->
  retry_reason (pe_kind e) = Some reason ->
  attempt < max_retries - 1 ->
  generate_text_loop provider max_retries messages (S todo) attempt last_error w
  = generate_text_loop provider max_retries messages todo (attempt + 1) (Some e)
      (after_sleep (2 ^ attempt) (called w)).
Proof.
  intros H Hk Hlt. cbn [generate_text_loop]. unfold bind at 1, chat_completions_create.
  rewrite H. cbn beta iota.
  apply Z.ltb_lt in Hlt.
  destruct (pe_kind e); try discriminate Hk; rewrite Hlt; reflexivity.
Qed.

Lemma loop_give_up todo attempt last_error w e reason :
  provider (api_calls w) (model (client w)) messages = Failed e ->
  retry_reason (pe_kind e) = Some reason ->
  max_retries - 1 ≤ attempt ->
  generate_text_loop provider max_retries messages (S todo) attempt last_error w
  = (Raise (App (OpenAIError reason (Some (Foreign (pe_exception e))) (attempt + 1))),
     failure_counted (called w)).
Proof.
  intros H Hk Hge. cbn [generate_text_loop]. unfold bind at 1, chat_completions_create.
  rewrite H. cbn beta iota.
  apply Z.ltb_ge in Hge.
  destruct (pe_kind e); try discriminate Hk; rewrite Hge;
    apply (inj Some) in Hk as <-; reflexivity.
Qed.

Lemma loop_counted_once todo attempt last_error w :
  counted_once w
    (generate_text_loop provider max_retries messages todo attempt last_error w).
Proof.
  revert attempt last_error w.
  induction todo as [|todo IH]; intros attempt last_error w.
  { rewrite loop_done. cbn. lia. }
  destruct (provider (api_calls w) (model (client w)) messages) as [content usage|e] eqn:E.
  { erewrite loop_completed by exact E. cbn. lia. }
  destruct (retry_reason (pe_kind e)) as [reason|] eqn:R.
  - destruct (Z.lt_ge_cases attempt (max_retries - 1)) as [Hlt|Hge].
    + erewrite loop_retry by eassumption.
      exact (IH (attempt + 1) (Some e) (after_sleep (2 ^ attempt) (called w))).
    + erewrite loop_give_up by eassumption. cbn. lia.
  - destruct (pe_kind e) eqn:K; try discriminate R.
    + erewrite loop_rate_limited by eassumption. cbn. lia.
    + erewrite loop_api_error by eassumption. cbn. lia.
Qed.

(** Retryable failures on the first [j] calls, then a rate-limit response. *)
Lemma loop_until_rate_limit j : ∀ todo attempt last_error w e,
  (j < todo)%nat ->
  attempt + Z.of_nat todo = max_retries ->
  (∀ i, (i < j)%nat ->
     ∃ e', provider (api_calls w + i)%nat (model (client w)) messages = Failed e'
           ∧ is_Some (retry_reason (pe_kind e'))) ->
  provider (api_calls w + j)%nat (model (client w)) messages = Failed e ->
  pe_kind e = RateLimit ->
  ∃ w', generate_text_loop provider max_retries messages todo attempt last_error w
        = (Raise (App (RateLimitError (pe_retry_after e))), w')
        ∧ api_calls w' = (api_calls w + j + 1)%nat
        ∧ client w' = client (failure_counted w).
Proof.
  induction j as [|j IH]; intros todo attempt last_error w e Hj Hsum Hpre Hrl Hk;
    (destruct todo as [|todo]; [lia|]).
  - rewrite Nat.add_0_r in Hrl. erewrite loop_rate_limited by eassumption.
    eexists. split; [reflexivity|]. cbn. split; [lia|done].
  - destruct (Hpre O ltac:(lia)) as (e' & He' & [reason Hr]).
    rewrite Nat.add_0_r in He'.
    erewrite loop_retry; [|exact He'|exact Hr|lia].
    destruct (IH todo (attempt + 1) (Some e') (after_sleep (2 ^ attempt) (called w)) e)
      as (w' & Hrun & Hcalls & Hclient).
    + lia.
    + lia.
    + intros i Hi. destruct (Hpre (S i) ltac:(lia)) as (e'' & He'' & Hs).
      exists e''. split; [|done]. cbn. rewrite <- He''. f_equal. lia.
    + cbn. rewrite <- Hrl. f_equal. lia.
    + done.
    + exists w'. split; [exact Hrun|]. split; [cbn in Hcalls; lia|exact Hclient].
Qed.

End ClientFacts.

Lemma OpenAIError_details reason e retry_count :
  details (OpenAIError reason (Some e) retry_count) !! "retry_count"
  = Some (VInt retry_count)
  ∧ details (OpenAIError reason (Some e) retry_count) !! "api_error_type"
    = Some (VStr (exception_type_name e))
  ∧ details (OpenAIError reason (Some e) retry_count) !! "api_error_message"
    = Some (VStr (exception_str e)).
Proof.
  unfold OpenAIError, OpenAIError_init.
  cbn [details SocialPostGeneratorException_init from_option id].
  split_and!.
  - rewrite !lookup_insert_ne by done. by rewrite lookup_insert_eq.
  - rewrite lookup_insert_ne by done. by rewrite lookup_insert_eq.
  - by rewrite lookup_insert_eq.
Qed.

(** ** Retries *)

(** C3. With [max_retries = 3], when the first two attempts fail with a
    timeout: if the third attempt completes, [generate_text] returns its text
    (trimmed), [failed_requests] is unchanged and the client has slept
    [2 ^ 0] then [2 ^ 1] seconds; if the third attempt fails with a timeout
    too, [generate_text] raises [OpenAIError] with [retry_count = 3] and the
    third error as the underlying one, [failed_requests] grows by exactly
    one, and the sleeps are the same two. *)
Theorem C3_retry_law (provider : provider_t) (prompt : str) (system_prompt : option str)
    (w : World) (e1 e2 : provider_error) :
  let messages := chat_messages prompt system_prompt in
  let k := api_calls w in
  let m := model (client w) in
  pe_kind e1 = Timeout -> pe_kind e2 = Timeout ->
  provider k m messages = Failed e1 ->
  provider (S k) m messages = Failed e2 ->
  (∀ content usage, provider (S (S k)) m messages = Completed content usage ->
     ∃ w', generate_text provider prompt system_prompt 3 w = (Ok (strip content), w')
       ∧ failed_requests (client w') = failed_requests (client w)
       ∧ total_requests (client w') = total_requests (client w) + 1
       ∧ slept w' = slept w ++ [2 ^ 0; 2 ^ 1]
       ∧ api_calls w' = (k + 3)%nat)
  ∧ (∀ e3, provider (S (S k)) m messages = Failed e3 -> pe_kind e3 = Timeout ->
     ∃ w' err,
       generate_text provider prompt system_prompt 3 w = (Raise (App err), w')
       ∧ err = OpenAIError (py "Таймаут запроса") (Some (Foreign (pe_exception e3))) 3
       ∧ exn_class err = ClsOpenAIError
       ∧ error_code err = py "OPENAI_ERROR"
       ∧ details err !! "retry_count" = Some (VInt 3)
       ∧ details err !! "api_error_type" = Some (VStr (type_name (pe_exception e3)))
       ∧ details err !! "api_error_message" = Some (VStr (text (pe_exception e3)))
       ∧ failed_requests (client w') = failed_requests (client w) + 1
       ∧ total_requests (client w') = total_requests (client w)
       ∧ slept w' = slept w ++ [2 ^ 0; 2 ^ 1]
       ∧ api_calls w' = (k + 3)%nat).
Proof.
  intros messages k m K1 K2 P1 P2.
  assert (R1 : retry_reason (pe_kind e1) = Some (py "Таймаут запроса")) by (by rewrite K1).
  assert (R2 : retry_reason (pe_kind e2) = Some (py "Таймаут запроса")) by (by rewrite K2).
  assert (Hstart : generate_text provider prompt system_prompt 3 w
    = generate_text_loop provider 3 messages 1 2 (Some e2)
        (after_sleep (2 ^ 1) (called (after_sleep (2 ^ 0) (called w))))).
  { unfold generate_text. change (Z.to_nat 3) with 3%nat. fold messages.
    erewrite loop_retry; [|exact P1|exact R1|lia].
    erewrite loop_retry; [|exact P2|exact R2|lia]. reflexivity. }
  split.
  - intros content usage P3. rewrite Hstart.
    erewrite loop_completed by exact P3.
    eexists. split; [reflexivity|]. cbn.
    split_and!; [done|done|by rewrite <- app_assoc|lia].
  - intros e3 P3 K3. rewrite Hstart.
    assert (R3 : retry_reason (pe_kind e3) = Some (py "Таймаут запроса")) by (by rewrite K3).
    erewrite loop_give_up; [|exact P3|exact R3|lia].
    eexists _, _. split; [reflexivity|].
    destruct (OpenAIError_details (py "Таймаут запроса") (Foreign (pe_exception e3)) 3)
      as (D1 & D2 & D3).
    split_and!; [reflexivity|reflexivity|reflexivity|exact D1|exact D2|exact D3
                |reflexivity|reflexivity|cbn; by rewrite <- app_assoc|cbn; lia].
Qed.

(** C3, at a scripted provider: two timeouts then a completion, and three
    timeouts. *)
Lemma C3_retry_law_witness :
  (∃ w', generate_text
           (scripted [Failed timeout_error; Failed timeout_error;
                      Completed (py " post ") (Some 7)] (Failed timeout_error))
           (py "prompt") None 3 (new_world (py "gpt-4o"))
         = (Ok (py "post"), w')
         ∧ failed_requests (client w') = 0
         ∧ total_requests (client w') = 1
         ∧ slept w' = [1; 2]
         ∧ api_calls w' = 3%nat)
  ∧ (∃ w' err, generate_text (scripted [] (Failed timeout_error))
           (py "prompt") None 3 (new_world (py "gpt-4o"))
         = (Raise (App err), w')
         ∧ err = OpenAIError (py "Таймаут запроса")
                   (Some (Foreign (pe_exception timeout_error))) 3
         ∧ exn_class err = ClsOpenAIError
         ∧ error_code err = py "OPENAI_ERROR"
         ∧ details err !! "retry_count" = Some (VInt 3)
         ∧ details err !! "api_error_type" = Some (VStr (py "APITimeoutError"))
         ∧ details err !! "api_error_message" = Some (VStr (py "Request timed out."))
         ∧ failed_requests (client w') = 1
         ∧ total_requests (client w') = 0
         ∧ slept w' = [1; 2]
         ∧ api_calls w' = 3%nat).
Proof.
  split.
  - exact (proj1 (C3_retry_law
      (scripted [Failed timeout_error; Failed timeout_error;
                 Completed (py " post ") (Some 7)] (Failed timeout_error))
      (py "prompt") None (new_world (py "gpt-4o")) timeout_error timeout_error
      eq_refl eq_refl eq_refl eq_refl) (py " post ") (Some 7) eq_refl).
  - exact (proj2 (C3_retry_law (scripted [] (Failed timeout_error))
      (py "prompt") None (new_world (py "gpt-4o")) timeout_error timeout_error
      eq_refl eq_refl eq_refl eq_refl) timeout_error eq_refl eq_refl).
Defined.

(** ** Rate limits *)

Lemma RateLimitError_code retry_after :
  exn_class (RateLimitError retry_after) = ClsRateLimitError
  ∧ error_code (RateLimitError retry_after) = py "RATE_LIMIT_ERROR".
Proof. unfold RateLimitError. by destruct (truthy_int retry_after). Qed.

Lemma RateLimitError_retry_after retry_after :
  details (RateLimitError retry_after) !! "retry_after" = VInt <$> truthy_int retry_after.
Proof.
  unfold RateLimitError. destruct (truthy_int retry_after) as [n|]; cbn.
  - by rewrite lookup_insert_eq.
  - unfold OpenAIError_init.
    cbn [details SocialPostGeneratorException_init from_option id].
    rewrite !lookup_insert_ne by done. apply lookup_empty.
Qed.

(** C4, as stated, fails for a hint of zero seconds: [if retry_after:] takes
    it for an absent one, and the details of the failure do not carry it. *)
Lemma C4_zero_retry_after_not_forwarded :
  ∃ w' err,
    generate_text (scripted [Failed (rate_limit_error (Some 0))] (Completed [] None))
      (py "prompt") None 3 (new_world (py "gpt-4o"))
    = (Raise (App err), w')
    ∧ pe_retry_after (rate_limit_error (Some 0)) = Some 0
    ∧ details err !! "retry_after" = None.
Proof.
  eexists _, _. split; [|split].
  - unfold generate_text. change (Z.to_nat 3) with 3%nat.
    erewrite loop_rate_limited; reflexivity.
  - reflexivity.
  - by rewrite RateLimitError_retry_after.
Qed.

(** C4, amended. When an attempt of an invocation gets a rate-limit response
    (the attempts before it, if any, having failed in a way that is retried),
    the invocation raises [RateLimitError] at once: the provider is not
    called again, [failed_requests] grows by exactly one and the other
    counters are unchanged.  A hint other than zero is carried in the details
    under [retry_after]. *)
Theorem C4_rate_limit_fails_fast (provider : provider_t) (prompt : str)
    (system_prompt : option str) (max_retries : Z) (w : World) (j : nat)
    (e : provider_error) :
  let messages := chat_messages prompt system_prompt in
  let m := model (client w) in
  (j < Z.to_nat max_retries)%nat ->
  (∀ i, (i < j)%nat ->
     ∃ e', provider (api_calls w + i)%nat m messages = Failed e'
           ∧ is_Some (retry_reason (pe_kind e'))) ->
  provider (api_calls w + j)%nat m messages = Failed e ->
  pe_kind e = RateLimit ->
  ∃ w', generate_text provider prompt system_prompt max_retries w
        = (Raise (App (RateLimitError (pe_retry_after e))), w')
    ∧ exn_class (RateLimitError (pe_retry_after e)) = ClsRateLimitError
    ∧ error_code (RateLimitError (pe_retry_after e)) = py "RATE_LIMIT_ERROR"
    ∧ (∀ n, pe_retry_after e = Some n -> n ≠ 0 ->
         details (RateLimitError (pe_retry_after e)) !! "retry_after" = Some (VInt n))
    ∧ api_calls w' = (api_calls w + j + 1)%nat
    ∧ failed_requests (client w') = failed_requests (client w) + 1
    ∧ total_requests (client w') = total_requests (client w)
    ∧ total_tokens (client w') = total_tokens (client w).
Proof.
  intros messages m Hj Hpre Hrl Hk. unfold generate_text. fold messages.
  destruct (loop_until_rate_limit provider max_retries messages j
              (Z.to_nat max_retries) 0 None w e) as (w' & Hrun & Hcalls & Hclient);
    [exact Hj|lia|exact Hpre|exact Hrl|exact Hk|].
  exists w'. split; [exact Hrun|].
  destruct (RateLimitError_code (pe_retry_after e)) as [Hc1 Hc2].
  split_and!; [exact Hc1|exact Hc2| |exact Hcalls|by rewrite Hclient..].
  intros n Hn Hnz. rewrite RateLimitError_retry_after, Hn. cbn.
  by destruct (Z.eqb_spec n 0).
Qed.

(** C4, at a scripted provider: a timeout, then a rate-limit response with a
    hint of 30 seconds. *)
Lemma C4_rate_limit_fails_fast_witness :
  ∃ w', generate_text
          (scripted [Failed timeout_error; Failed (rate_limit_error (Some 30))]
             (Completed (py "never asked") None))
          (py "prompt") None 3 (new_world (py "gpt-4o"))
        = (Raise (App (RateLimitError (Some 30))), w')
    ∧ exn_class (RateLimitError (Some 30)) = ClsRateLimitError
    ∧ error_code (RateLimitError (Some 30)) = py "RATE_LIMIT_ERROR"
    ∧ (∀ n, Some 30 = Some n -> n ≠ 0 ->
         details (RateLimitError (Some 30)) !! "retry_after" = Some (VInt n))
    ∧ api_calls w' = 2%nat
    ∧ failed_requests (client w') = 1
    ∧ total_requests (client w') = 0
    ∧ total_tokens (client w') = 0.
Proof.
  refine (C4_rate_limit_fails_fast
    (scripted [Failed timeout_error; Failed (rate_limit_error (Some 30))]
       (Completed (py "never asked") None))
    (py "prompt") None 3 (new_world (py "gpt-4o")) 1%nat (rate_limit_error (Some 30))
    _ _ eq_refl eq_refl).
  - vm_compute. lia.
  - intros i Hi. exists timeout_error. destruct i as [|i]; [|lia].
    split; [reflexivity|]. by eexists.
Defined.

(** ** Statistics *)

Lemma generate_text_counted_once provider prompt system_prompt max_retries w :
  counted_once w (generate_text provider prompt system_prompt max_retries w).
Proof. apply loop_counted_once. Qed.

(** After any sequence of invocations, [total_requests] has grown by the
    number of invocations that returned and [failed_requests] by the number
    of those that raised. *)
Lemma run_invocations_counts provider invocations : ∀ w,
  total_requests (client (run_invocations provider invocations w).2)
  = total_requests (client w) + succeeded (run_invocations provider invocations w).1
  ∧ failed_requests (client (run_invocations provider invocations w).2)
    = failed_requests (client w)
      + terminally_failed (run_invocations provider invocations w).1.
Proof.
  induction invocations as [|[[prompt system_prompt] max_retries] rest IH]; intros w.
  { cbn. unfold succeeded, terminally_failed. cbn. lia. }
  cbn [run_invocations].
  pose proof (generate_text_counted_once provider prompt system_prompt max_retries w) as H1.
  destruct (generate_text provider prompt system_prompt max_retries w) as [r w1].
  specialize (IH w1). destruct (run_invocations provider rest w1) as [rs w2].
  cbn [fst snd] in *. unfold succeeded, terminally_failed in *.
  destruct r as [a|err]; cbn [counted_once List.filter is_ok negb length] in *; lia.
Qed.

(** What [get_statistics] reports on a fresh client after [n] invocations
    that returned and [m] that raised: the rate of [n - m] over [n]. *)
Lemma statistics_after_run provider invocations model :
  let run := run_invocations provider invocations (new_world model) in
  let n := succeeded run.1 in
  let m := terminally_failed run.1 in
  st_total_requests (get_statistics (client run.2)) = n
  ∧ st_failed_requests (get_statistics (client run.2)) = m
  ∧ st_success_rate (get_statistics (client run.2))
    = round2 (if 0 <? n then (Qc_of_Z (n - m) / Qc_of_Z n * Qc_of_Z 100)%Qc
              else Qc_of_Z 0).
Proof.
  intros run n m.
  destruct (run_invocations_counts provider invocations (new_world model)) as [Ht Hf].
  fold run in Ht, Hf. cbn in Ht, Hf. fold n in Ht. fold m in Hf.
  unfold get_statistics. cbn [st_total_requests st_failed_requests st_success_rate].
  rewrite Ht, Hf. done.
Qed.

(** C2 fails on the code: [total_requests] counts the successful invocations
    only, so after one generation that succeeds and one that fails the
    reported rate is [(1 - 1) / 1 * 100 = 0], where the law asks for
    [1 / 2 * 100 = 50]. *)
Theorem C2_success_rate_after_one_success_one_failure :
  let provider :=
    scripted [Completed (py "post") (Some 12); Failed (rate_limit_error None)]
      (Completed [] None) in
  let run :=
    run_invocations provider [(py "first", None, 3); (py "second", None, 3)]
      (new_world (py "gpt-4o")) in
  List.map is_ok run.1 = [true; false]
  ∧ succeeded run.1 = 1
  ∧ terminally_failed run.1 = 1
  ∧ total_requests (client run.2) = 1
  ∧ failed_requests (client run.2) = 1
  ∧ st_success_rate (get_statistics (client run.2)) = Qc_of_Z 0
  ∧ expected_success_rate 1 1 = Qc_of_Z 50
  ∧ st_success_rate (get_statistics (client run.2)) ≠ expected_success_rate 1 1.
Proof.
  cbv zeta.
  assert (Hrun : ∃ a e w,
    run_invocations
      (scripted [Completed (py "post") (Some 12); Failed (rate_limit_error None)]
         (Completed [] None))
      [(py "first", None, 3); (py "second", None, 3)] (new_world (py "gpt-4o"))
    = ([Ok a; Raise e], w)
    ∧ total_requests (client w) = 1 ∧ failed_requests (client w) = 1).
  { cbn [run_invocations]. unfold generate_text. change (Z.to_nat 3) with 3%nat.
    erewrite loop_completed by reflexivity.
    erewrite loop_rate_limited by reflexivity.
    eexists _, _, _. split; [reflexivity|]. cbn. done. }
  destruct Hrun as (a & e & w & -> & Ht & Hf).
  cbn [fst snd]. unfold get_statistics. cbn [st_success_rate]. rewrite Ht, Hf.
  assert (E0 : round2
      (if 0 <? 1 then (Qc_of_Z (1 - 1) / Qc_of_Z 1 * Qc_of_Z 100)%Qc else Qc_of_Z 0)
      = Qc_of_Z 0) by (apply Qc_is_canon; vm_compute; reflexivity).
  assert (E50 : expected_success_rate 1 1 = Qc_of_Z 50)
    by (apply Qc_is_canon; vm_compute; reflexivity).
  split_and!; try done.
Qed.

(** ** The pipeline *)

Lemma TextExtractionError_code url reason :
  exn_class (TextExtractionError url reason) = ClsTextExtractionError
  ∧ error_code (TextExtractionError url reason) = py "TEXT_EXTRACTION_ERROR".
Proof. done. Qed.

Section Pipeline.

Variable settings : Settings.
Variable lower : str -> str.
Variable validators_url : str -> bool.
Variable urlparse : str -> ParseResult.
Variable fetch_html : str -> result str.
Variable soup_get_text : str -> foreign_exception + str.
Variable provider : provider_t.

Let run := generate_post settings lower validators_url urlparse fetch_html
             soup_get_text provider.

(** The pipeline up to the length check. *)
Lemma generate_post_short_text url style max_length w u html raw :
  validate_url validators_url urlparse url = Ok u ->
  fetch_html u = Ok html ->
  soup_get_text html = inr raw ->
  len (clean_text raw) < min_text_length settings ->
  run url style max_length w
  = (Raise (App (TextExtractionError u
       (Some (py "Текста недостаточно: " ++ str_of_int (len (clean_text raw))
              ++ py " символов")))), w).
Proof.
  intros Hu Hf Hs Hlen. unfold run, generate_post.
  destruct (validate_style_in_table lower style) as [cfg Hcfg].
  unfold bind, lift. rewrite Hu, Hcfg, Hf. unfold extract_text. rewrite Hs.
  unfold validate_text_length. apply Z.ltb_lt in Hlen. rewrite Hlen. reflexivity.
Qed.

(** The pipeline when every step before the generation passes and the first
    call of the provider completes. *)
Lemma generate_post_completed url style max_length w u html raw cfg content usage :
  validate_url validators_url urlparse url = Ok u ->
  fetch_html u = Ok html ->
  soup_get_text html = inr raw ->
  min_text_length settings ≤ len (clean_text raw) ->
  STYLES_getitem (validate_style lower style) = Ok cfg ->
  provider (api_calls w) (model (client w))
    (chat_messages
       (render_user_prompt cfg (post_max_length_of settings max_length)
          (limit_prompt_text (clean_text raw)))
       (Some (system_prompt cfg)))
  = Completed content usage ->
  run url style max_length w
  = (Ok (finish_post (post_max_length_of settings max_length) (strip content)),
     success_counted usage (called w)).
Proof.
  intros Hu Hf Hs Hlen Hcfg Hp. unfold run, generate_post.
  unfold bind at 1, lift at 1. rewrite Hu.
  unfold bind at 1, lift at 1. rewrite Hcfg.
  unfold bind at 1, lift at 1. rewrite Hf.
  unfold bind at 1, lift at 1. unfold extract_text. rewrite Hs.
  unfold bind at 1, lift at 1. unfold validate_text_length.
  apply Z.ltb_ge in Hlen. rewrite Hlen.
  unfold bind at 1, try_except, generate_text. change (Z.to_nat 3) with 3%nat.
  erewrite loop_completed by exact Hp. reflexivity.
Qed.

End Pipeline.

(** C6. When the URL is valid, the page is fetched and the text extracted
    from it, cleaned, is shorter than [settings.min_text_length],
    [generate_post] raises [TextExtractionError] and leaves the world as it
    was: the provider has not been called, nothing has slept, and the three
    counters of the client are unchanged. *)
Theorem C6_short_text_fails_before_generation
    (settings : Settings) (lower : str -> str) (validators_url : str -> bool)
    (urlparse : str -> ParseResult) (fetch_html : str -> result str)
    (soup_get_text : str -> foreign_exception + str) (provider : provider_t)
    (url : str) (style : option str) (max_length : option Z) (w : World)
    (u html raw : str) :
  validate_url validators_url urlparse url = Ok u ->
  fetch_html u = Ok html ->
  soup_get_text html = inr raw ->
  len (clean_text raw) < min_text_length settings ->
  ∃ err w',
    generate_post settings lower validators_url urlparse fetch_html soup_get_text
      provider url style max_length w = (Raise (App err), w')
    ∧ exn_class err = ClsTextExtractionError
    ∧ error_code err = py "TEXT_EXTRACTION_ERROR"
    ∧ api_calls w' = api_calls w
    ∧ slept w' = slept w
    ∧ total_requests (client w') = total_requests (client w)
    ∧ failed_requests (client w') = failed_requests (client w)
    ∧ total_tokens (client w') = total_tokens (client w).
Proof.
  intros Hu Hf Hs Hlen. eexists _, w. split.
  - by eapply generate_post_short_text.
  - by split_and!.
Qed.

(** C6, at a page whose text has nine characters. *)
Lemma C6_short_text_fails_before_generation_witness :
  ∃ err w',
    generate_post default_settings lower_basic accept_url parse_https fetch_page
      (page_text (py "  too   short  ")) (scripted [] (Completed (py "post") None))
      (py "https://example.com") None None (new_world (py "gpt-4o"))
    = (Raise (App err), w')
    ∧ exn_class err = ClsTextExtractionError
    ∧ error_code err = py "TEXT_EXTRACTION_ERROR"
    ∧ api_calls w' = O
    ∧ slept w' = []
    ∧ total_requests (client w') = 0
    ∧ failed_requests (client w') = 0
    ∧ total_tokens (client w') = 0.
Proof.
  refine (C6_short_text_fails_before_generation default_settings lower_basic
    accept_url parse_https fetch_page (page_text (py "  too   short  "))
    (scripted [] (Completed (py "post") None))
    (py "https://example.com") None None (new_world (py "gpt-4o"))
    (py "https://example.com") (py "<html><body>...</body></html>")
    (py "  too   short  ") _ _ _ _).
  - vm_compute. reflexivity.
  - reflexivity.
  - reflexivity.
  - vm_compute. reflexivity.
Defined.

(** ** Truncation of the generated post *)

Lemma rsplit1_spec sep s :
  match rsplit1 sep s with
  | (h, Some t) => s = h ++ sep :: t ∧ sep ∉ t
  | (h, None) => h = s ∧ sep ∉ s
  end.
Proof.
  induction s as [|c s IH]; simpl.
  { split; [done|]. apply not_elem_of_nil. }
  destruct (rsplit1 sep s) as [h [t|]].
  - destruct IH as [-> Ht]. done.
  - destruct IH as [-> Hs]. destruct (N.eqb_spec c sep) as [->|Hne].
    + done.
    + split; [done|]. apply not_elem_of_cons. done.
Qed.

Lemma finish_post_within n post :
  len (strip post) ≤ n -> finish_post n post = strip post.
Proof.
  intros H. unfold finish_post. apply Z.ltb_ge in H. by rewrite H.
Qed.

(** What the truncation does give: the ellipsis, a text of at most
    [n + 3] characters, and a cut at the last space of the first [n]
    characters when they hold one. *)
Lemma finish_post_truncated n post :
  0 ≤ n < len (strip post) ->
  ∃ h, finish_post n post = h ++ py "..."
    ∧ len h ≤ n
    ∧ len (finish_post n post) ≤ n + 3
    ∧ ((∃ t, take (Z.to_nat n) (strip post) = h ++ SPACE :: t ∧ SPACE ∉ t)
       ∨ (h = take (Z.to_nat n) (strip post) ∧ SPACE ∉ h)).
Proof.
  intros [H0 Hn]. unfold finish_post, rsplit1_head, slice_to.
  apply Z.ltb_lt in Hn as Hn'. rewrite Hn'.
  apply Z.leb_le in H0 as H0'. rewrite H0'.
  set (cut := take (Z.to_nat n) (strip post)).
  assert (Hcut : len cut ≤ n).
  { unfold len, cut. rewrite length_take. lia. }
  pose proof (rsplit1_spec SPACE cut) as Hs.
  destruct (rsplit1 SPACE cut) as [h [t|]]; cbn [fst].
  - destruct Hs as [Hc Ht]. exists h.
    assert (len h ≤ n).
    { rewrite Hc in Hcut. unfold len in *. rewrite length_app in Hcut. lia. }
    split_and!; [done|done| |left; eauto].
    unfold len in *. rewrite length_app. change (length (py "...")) with 3%nat. lia.
  - destruct Hs as [-> Hs]. exists cut.
    split_and!; [done|done| |by right].
    unfold len in *. rewrite length_app. change (length (py "...")) with 3%nat. lia.
Qed.

(** C1 fails on the code: the ellipsis is appended after the cut at
    [post_max_length], so the returned post can be up to three characters
    longer than the maximum; and a text without a space in its first
    [post_max_length] characters is cut inside a word. *)
Theorem C1_truncated_post_exceeds_maximum :
  let generate post :=
    (generate_post default_settings lower_basic accept_url parse_https fetch_page
       (page_text (repeat 97%N 120)) (scripted [Completed post None] (Completed [] None))
       (py "https://example.com") None (Some 400) (new_world (py "gpt-4o"))).1 in
  post_max_length_of default_settings (Some 400) = 400
  ∧ len (strip long_post) = 402
  ∧ generate long_post = Ok (repeat 97%N 399 ++ py "...")
  ∧ len (repeat 97%N 399 ++ py "...") = 402
  ∧ len (strip unbroken_post) = 401
  ∧ generate unbroken_post = Ok (repeat 97%N 400 ++ py "...")
  ∧ len (repeat 97%N 400 ++ py "...") = 403.
Proof. vm_compute. by split_and!. Qed.

(** ** More on trimming *)

Lemma strip_trimmed s : trimmed (strip s).
Proof.
  split; intros c Hc; unfold strip in Hc.
  - apply rstrip_head in Hc. by apply lstrip_head in Hc.
  - by apply rstrip_last in Hc.
Qed.

Lemma strip_fixed s : trimmed s -> strip s = s.
Proof.
  intros [Hh Hl]. unfold strip. rewrite (lstrip_fixed s Hh). by apply rstrip_fixed.
Qed.

Lemma strip_idempotent s : strip (strip s) = strip s.
Proof. apply strip_fixed, strip_trimmed. Qed.

(** ** More on the retry loop *)

Lemma backoff_delays_S attempt j :
  backoff_delays attempt (S j) = 2 ^ attempt :: backoff_delays (attempt + 1) j.
Proof.
  unfold backoff_delays. cbn [seq map]. rewrite Z.add_0_r. f_equal.
  rewrite <- seq_shift, map_map. apply map_ext. intros i. f_equal. lia.
Qed.

Section MoreClientFacts.

Variable provider : provider_t.
Variable max_retries : Z.
Variable messages : list chat_message.

(** The world after [j] retried failures in a row. *)
Lemma loop_retries j : ∀ todo attempt last_error w,
  (j < todo)%nat ->
  attempt + Z.of_nat todo = max_retries ->
  (∀ i, (i < j)%nat ->
     ∃ e, provider (api_calls w + i)%nat (model (client w)) messages = Failed e
          ∧ is_Some (retry_reason (pe_kind e))) ->
  ∃ last_error',
    generate_text_loop provider max_retries messages todo attempt last_error w
    = generate_text_loop provider max_retries messages (todo - j)
        (attempt + Z.of_nat j) last_error'
        {| client := client w; api_calls := (api_calls w + j)%nat;
           slept := slept w ++ backoff_delays attempt j |}.
Proof.
  induction j as [|j IH]; intros todo attempt last_error w Hj Hsum Hpre.
  - exists last_error. rewrite Nat.sub_0_r, Z.add_0_r, Nat.add_0_r.
    unfold backoff_delays. cbn. rewrite app_nil_r. by destruct w.
  - destruct todo as [|todo]; [lia|].
    destruct (Hpre O ltac:(lia)) as (e & He & [reason Hr]).
    rewrite Nat.add_0_r in He.
    erewrite loop_retry; [|exact He|exact Hr|lia].
    destruct (IH todo (attempt + 1) (Some e) (after_sleep (2 ^ attempt) (called w)))
      as [last' Hrun].
    + lia.
    + lia.
    + intros i Hi. destruct (Hpre (S i) ltac:(lia)) as (e' & He' & Hs).
      exists e'. split; [|done]. cbn. rewrite <- He'. f_equal. lia.
    + exists last'. rewrite Hrun. cbn [client api_calls slept after_sleep called].
      rewrite backoff_delays_S, <- app_assoc. cbn [app].
      replace (S todo - S j)%nat with (todo - j)%nat by lia.
      replace (attempt + 1 + Z.of_nat j) with (attempt + Z.of_nat (S j)) by lia.
      replace (S (api_calls w) + j)%nat with (api_calls w + S j)%nat by lia.
      reflexivity.
Qed.

(** Every run of the loop: the calls made, the sleeps, the counters and the
    kind of outcome. *)
Lemma loop_shape todo : ∀ attempt last_error w,
  attempt + Z.of_nat todo = max_retries ->
  ∃ c,
    let rw := generate_text_loop provider max_retries messages todo attempt last_error w in
    (c ≤ todo)%nat ∧ (todo ≠ O -> c ≠ O)
    ∧ api_calls rw.2 = (api_calls w + c)%nat
    ∧ slept rw.2 = slept w ++ backoff_delays attempt (c - 1)
    ∧ model (client rw.2) = model (client w)
    ∧ match rw.1 with
      | Ok t => trimmed t
      | Raise e => client_failure e ∧ total_tokens (client rw.2) = total_tokens (client w)
      end.
Proof.
  induction todo as [|todo IH]; intros attempt last_error w Hsum.
  { exists O. rewrite loop_done. cbn. rewrite app_nil_r.
    split_and!; try done. by left. }
  destruct (provider (api_calls w) (model (client w)) messages) as [content usage|e] eqn:E.
  { exists 1%nat. erewrite loop_completed by exact E. cbn.
    rewrite app_nil_r. split_and!; try done; try lia. apply strip_trimmed. }
  assert (Hfail : ∀ err,
     exn_class err = ClsOpenAIError ∨ exn_class err = ClsRateLimitError ->
     ∃ c : nat,
       let rw := (Raise (App err) : result str, failure_counted (called w)) in
       (c ≤ S todo)%nat ∧ (S todo ≠ O -> c ≠ O)
       ∧ api_calls rw.2 = (api_calls w + c)%nat
       ∧ slept rw.2 = slept w ++ backoff_delays attempt (c - 1)
       ∧ model (client rw.2) = model (client w)
       ∧ match rw.1 with
         | Ok t => trimmed t
         | Raise e => client_failure e
                      ∧ total_tokens (client rw.2) = total_tokens (client w)
         end).
  { intros err Herr. exists 1%nat. cbn. rewrite app_nil_r.
    split_and!; try done; lia. }
  destruct (retry_reason (pe_kind e)) as [reason|] eqn:R.
  - destruct (Z.lt_ge_cases attempt (max_retries - 1)) as [Hlt|Hge].
    + erewrite loop_retry by eassumption.
      destruct (IH (attempt + 1) (Some e) (after_sleep (2 ^ attempt) (called w)))
        as (c & Hc & Hnz & Hcalls & Hslept & Hmodel & Hres); [lia|].
      exists (S c). cbv zeta in *. cbn [client api_calls slept after_sleep called] in *.
      assert (c ≠ O) by (apply Hnz; lia).
      split_and!; try done; try lia.
      * rewrite Hslept, <- app_assoc. cbn [app]. f_equal.
        replace (S c - 1)%nat with (S (c - 1)) by lia. by rewrite backoff_delays_S.
    + erewrite loop_give_up by eassumption. apply Hfail. by left.
  - destruct (pe_kind e) eqn:K; try discriminate R.
    + erewrite loop_rate_limited by eassumption. apply Hfail.
      right. apply RateLimitError_code.
    + erewrite loop_api_error by eassumption. apply Hfail. by left.
Qed.

End MoreClientFacts.

(** ** The outcomes of [generate_text] *)

Lemma generate_text_result (provider : provider_t) (prompt : str)
    (system_prompt : option str) (max_retries : Z) (w : World) :
  let rw := generate_text provider prompt system_prompt max_retries w in
  model (client rw.2) = model (client w)
  ∧ match rw.1 with
    | Ok t =>
      trimmed t
      ∧ total_requests (client rw.2) = total_requests (client w) + 1
      ∧ failed_requests (client rw.2) = failed_requests (client w)
    | Raise e =>
      client_failure e
      ∧ total_requests (client rw.2) = total_requests (client w)
      ∧ failed_requests (client rw.2) = failed_requests (client w) + 1
      ∧ total_tokens (client rw.2) = total_tokens (client w)
    end.
Proof.
  cbv zeta.
  pose proof (generate_text_counted_once provider prompt system_prompt max_retries w) as Hc.
  unfold generate_text in *.
  destruct (Z.le_gt_cases 0 max_retries) as [Hpos|Hneg].
  - destruct (loop_shape provider max_retries (chat_messages prompt system_prompt)
                (Z.to_nat max_retries) 0 None w ltac:(lia))
      as (c & _ & _ & _ & _ & Hmodel & Hres).
    cbv zeta in *.
    destruct (generate_text_loop _ _ _ _ _ _ w) as [[t|e] w'];
      unfold counted_once in Hc; cbn [fst snd] in *.
    + destruct Hc. by split_and!.
    + destruct Hres, Hc. by split_and!.
  - replace (Z.to_nat max_retries) with O in * by lia.
    rewrite loop_done in *. unfold counted_once in Hc. cbn in *. destruct Hc.
    split_and!; try done. by left.
Qed.

(** X1. Every invocation of [generate_text], whatever the provider does and
    whatever [max_retries] is, ends in one of two ways: it returns a text
    without whitespace at either end, having added one to [total_requests]
    and nothing to [failed_requests]; or it raises an [OpenAIError] or a
    [RateLimitError], having added one to [failed_requests] and nothing to
    [total_requests] or [total_tokens].  The model name never changes. *)
Theorem X1_generate_text_outcome (provider : provider_t) (prompt : str)
    (system_prompt : option str) (max_retries : Z) (w : World) :
  let rw := generate_text provider prompt system_prompt max_retries w in
  model (client rw.2) = model (client w)
  ∧ match rw.1 with
    | Ok t =>
      trimmed t
      ∧ total_requests (client rw.2) = total_requests (client w) + 1
      ∧ failed_requests (client rw.2) = failed_requests (client w)
    | Raise e =>
      client_failure e
      ∧ total_requests (client rw.2) = total_requests (client w)
      ∧ failed_requests (client rw.2) = failed_requests (client w) + 1
      ∧ total_tokens (client rw.2) = total_tokens (client w)
    end.
Proof. apply generate_text_result. Qed.


(** X3. [generate_text] calls the provider at most [max_retries] times (not
    at all when [max_retries] is zero or negative, at least once otherwise),
    and it sleeps once between two calls in a row, [2 ^ 0] seconds after the
    first call, [2 ^ 1] after the second, and so on: after [c] calls it has
    slept [c - 1] times. *)
Theorem X3_calls_bounded_and_backoff_schedule (provider : provider_t) (prompt : str)
    (system_prompt : option str) (max_retries : Z) (w : World) :
  let w' := (generate_text provider prompt system_prompt max_retries w).2 in
  ∃ c : nat,
    api_calls w' = (api_calls w + c)%nat
    ∧ (c ≤ Z.to_nat max_retries)%nat
    ∧ (0 < max_retries -> c ≠ O)
    ∧ slept w' = slept w ++ backoff_delays 0 (c - 1).
Proof.
  cbv zeta. unfold generate_text.
  destruct (Z.le_gt_cases 0 max_retries) as [Hpos|Hneg].
  - destruct (loop_shape provider max_retries (chat_messages prompt system_prompt)
                (Z.to_nat max_retries) 0 None w ltac:(lia))
      as (c & Hc & Hnz & Hcalls & Hslept & _).
    exists c. cbv zeta in *. split_and!; try done. intros ?. apply Hnz. lia.
  - exists O. replace (Z.to_nat max_retries) with O by lia. rewrite loop_done. cbn.
    rewrite app_nil_r. split_and!; try done; lia.
Qed.

Lemma scripted_retryable_prefix (script : list api_outcome) (otherwise : api_outcome)
    (m : str) (messages : list chat_message) (k j : nat) :
  (∀ i, (i < j)%nat -> script !! (k + i)%nat = Some (Failed timeout_error)) ->
  ∀ i, (i < j)%nat ->
    ∃ e, scripted script otherwise (k + i)%nat m messages = Failed e
         ∧ is_Some (retry_reason (pe_kind e)).
Proof.
  intros H i Hi. exists timeout_error. unfold scripted. rewrite (H i Hi).
  split; [done|]. by eexists.
Qed.

(** X4. When the first [j] attempts of an invocation fail in a way that is
    retried (timeout, connection error or unexpected exception) and attempt
    [j], still within [max_retries], completes, [generate_text] returns the
    trimmed content of that attempt; it has called the provider [j + 1]
    times, slept [2 ^ 0], ..., [2 ^ (j - 1)] seconds, added one to
    [total_requests] and the reported usage to [total_tokens], and left
    [failed_requests] alone: the failed attempts are not counted. *)
Theorem X4_success_after_retries (provider : provider_t) (prompt : str)
    (system_prompt : option str) (max_retries : Z) (w : World) (j : nat)
    (content : str) (usage : option Z) :
  let messages := chat_messages prompt system_prompt in
  let m := model (client w) in
  (j < Z.to_nat max_retries)%nat ->
  (∀ i, (i < j)%nat ->
     ∃ e, provider (api_calls w + i)%nat m messages = Failed e
          ∧ is_Some (retry_reason (pe_kind e))) ->
  provider (api_calls w + j)%nat m messages = Completed content usage ->
  generate_text provider prompt system_prompt max_retries w
  = (Ok (strip content),
     {| client :=
          {| total_requests := total_requests (client w) + 1;
             total_tokens := total_tokens (client w) + default 0 usage;
             failed_requests := failed_requests (client w);
             model := m |};
        api_calls := (api_calls w + j + 1)%nat;
        slept := slept w ++ backoff_delays 0 j |}).
Proof.
  intros messages m Hj Hpre Hdone. unfold generate_text. fold messages.
  destruct (loop_retries provider max_retries messages j (Z.to_nat max_retries) 0 None w
              Hj ltac:(lia) Hpre) as [last' ->].
  destruct (Z.to_nat max_retries - j)%nat as [|todo] eqn:Htodo; [lia|].
  erewrite loop_completed by exact Hdone.
  unfold success_counted, called. cbn. do 3 f_equal. lia.
Qed.

(** X4, at a scripted provider: two timeouts, then a completion at the third
    of five attempts. *)
Lemma X4_success_after_retries_witness :
  generate_text
    (scripted [Failed timeout_error; Failed timeout_error;
               Completed (py "  done ") (Some 42)] (Failed timeout_error))
    (py "prompt") (Some (py "system")) 5 (new_world (py "gpt-4o"))
  = (Ok (py "done"),
     {| client := {| total_requests := 1; total_tokens := 42; failed_requests := 0;
                     model := py "gpt-4o" |};
        api_calls := 3%nat; slept := [1; 2] |}).
Proof.
  refine (X4_success_after_retries
    (scripted [Failed timeout_error; Failed timeout_error;
               Completed (py "  done ") (Some 42)] (Failed timeout_error))
    (py "prompt") (Some (py "system")) 5 (new_world (py "gpt-4o")) 2%nat
    (py "  done ") (Some 42) _ _ eq_refl).
  - vm_compute. lia.
  - apply scripted_retryable_prefix. intros i Hi.
    destruct i as [|[|i]]; [reflexivity|reflexivity|lia].
Defined.

(** X5. When every one of the [max_retries] attempts of an invocation
    ([max_retries] at least one) fails in a way that is retried,
    [generate_text] raises [OpenAIError] with the reason of the last failure,
    that failure as the underlying error and [retry_count = max_retries]; it
    has called the provider [max_retries] times, slept [max_retries - 1]
    times (not after the last attempt) and added exactly one to
    [failed_requests]. *)
Theorem X5_failure_after_all_retries (provider : provider_t) (prompt : str)
    (system_prompt : option str) (max_retries : Z) (w : World)
    (e_last : provider_error) (reason : str) :
  let messages := chat_messages prompt system_prompt in
  let m := model (client w) in
  let n := Z.to_nat max_retries in
  0 < max_retries ->
  (∀ i, (i < n - 1)%nat ->
     ∃ e, provider (api_calls w + i)%nat m messages = Failed e
          ∧ is_Some (retry_reason (pe_kind e))) ->
  provider (api_calls w + (n - 1))%nat m messages = Failed e_last ->
  retry_reason (pe_kind e_last) = Some reason ->
  generate_text provider prompt system_prompt max_retries w
  = (Raise (App (OpenAIError reason (Some (Foreign (pe_exception e_last))) max_retries)),
     {| client :=
          {| total_requests := total_requests (client w);
             total_tokens := total_tokens (client w);
             failed_requests := failed_requests (client w) + 1;
             model := m |};
        api_calls := (api_calls w + n)%nat;
        slept := slept w ++ backoff_delays 0 (n - 1) |}).
Proof.
  intros messages m n Hpos Hpre Hlast Hreason. unfold generate_text. fold messages n.
  destruct (loop_retries provider max_retries messages (n - 1) n 0 None w
              ltac:(lia) ltac:(lia) Hpre) as [last' ->].
  replace (n - (n - 1))%nat with 1%nat by lia.
  erewrite loop_give_up; [|exact Hlast|exact Hreason|lia].
  unfold failure_counted, called. cbn.
  replace (0 + Z.of_nat (n - 1) + 1) with max_retries by lia.
  do 3 f_equal. lia.
Qed.

(** X5, at a scripted provider that always times out, with four attempts. *)
Lemma X5_failure_after_all_retries_witness :
  generate_text (scripted [] (Failed timeout_error)) (py "prompt") None 4
    (new_world (py "gpt-4o"))
  = (Raise (App (OpenAIError (py "Таймаут запроса")
                   (Some (Foreign (pe_exception timeout_error))) 4)),
     {| client := {| total_requests := 0; total_tokens := 0; failed_requests := 1;
                     model := py "gpt-4o" |};
        api_calls := 4%nat; slept := [1; 2; 4] |}).
Proof.
  refine (X5_failure_after_all_retries (scripted [] (Failed timeout_error))
    (py "prompt") None 4 (new_world (py "gpt-4o")) timeout_error (py "Таймаут запроса")
    _ _ eq_refl eq_refl).
  - lia.
  - intros i Hi. exists timeout_error. split; [reflexivity|by eexists].
Defined.

(** X6. With [max_retries] zero or negative [generate_text] never calls the
    provider: it raises [OpenAIError] with [retry_count = max_retries] and no
    underlying error, and counts one failed request. *)
Theorem X6_no_attempt_without_retries (provider : provider_t) (prompt : str)
    (system_prompt : option str) (max_retries : Z) (w : World) :
  max_retries ≤ 0 ->
  generate_text provider prompt system_prompt max_retries w
  = (Raise (App (OpenAIError (py "Все попытки исчерпаны") None max_retries)),
     failure_counted w)
  ∧ api_calls (failure_counted w) = api_calls w
  ∧ details (OpenAIError (py "Все попытки исчерпаны") None max_retries) !! "retry_count"
    = Some (VInt max_retries)
  ∧ details (OpenAIError (py "Все попытки исчерпаны") None max_retries) !! "api_error_type"
    = None.
Proof.
  intros Hle. unfold generate_text.
  replace (Z.to_nat max_retries) with O by lia. rewrite loop_done.
  by split_and!.
Qed.

(** X6, at [max_retries = 0]. *)
Lemma X6_no_attempt_without_retries_witness :
  generate_text (scripted [] (Completed (py "post") None)) (py "prompt") None 0
    (new_world (py "gpt-4o"))
  = (Raise (App (OpenAIError (py "Все попытки исчерпаны") None 0)),
     failure_counted (new_world (py "gpt-4o")))
  ∧ api_calls (failure_counted (new_world (py "gpt-4o"))) = O
  ∧ details (OpenAIError (py "Все попытки исчерпаны") None 0) !! "retry_count"
    = Some (VInt 0)
  ∧ details (OpenAIError (py "Все попытки исчерпаны") None 0) !! "api_error_type" = None.
Proof.
  refine (X6_no_attempt_without_retries (scripted [] (Completed (py "post") None))
    (py "prompt") None 0 (new_world (py "gpt-4o")) _). lia.
Defined.

(** X7. When an attempt of an invocation gets a provider error that is
    neither a rate limit, a timeout nor a connection error (the attempts
    before it having failed in a way that is retried), [generate_text] does
    not retry: it raises [OpenAIError] whose reason is the text of that
    error and whose [retry_count] is the number of attempts made, and counts
    one failed request. *)
Theorem X7_api_error_fails_fast (provider : provider_t) (prompt : str)
    (system_prompt : option str) (max_retries : Z) (w : World) (j : nat)
    (e : provider_error) :
  let messages := chat_messages prompt system_prompt in
  let m := model (client w) in
  (j < Z.to_nat max_retries)%nat ->
  (∀ i, (i < j)%nat ->
     ∃ e', provider (api_calls w + i)%nat m messages = Failed e'
           ∧ is_Some (retry_reason (pe_kind e'))) ->
  provider (api_calls w + j)%nat m messages = Failed e ->
  pe_kind e = ApiError ->
  generate_text provider prompt system_prompt max_retries w
  = (Raise (App (OpenAIError (text (pe_exception e)) (Some (Foreign (pe_exception e)))
                   (Z.of_nat j + 1))),
     {| client :=
          {| total_requests := total_requests (client w);
             total_tokens := total_tokens (client w);
             failed_requests := failed_requests (client w) + 1;
             model := m |};
        api_calls := (api_calls w + j + 1)%nat;
        slept := slept w ++ backoff_delays 0 j |}).
Proof.
  intros messages m Hj Hpre Herr Hk. unfold generate_text. fold messages.
  destruct (loop_retries provider max_retries messages j (Z.to_nat max_retries) 0 None w
              Hj ltac:(lia) Hpre) as [last' ->].
  destruct (Z.to_nat max_retries - j)%nat as [|todo] eqn:Htodo; [lia|].
  erewrite loop_api_error; [|exact Herr|exact Hk].
  unfold failure_counted, called. cbn. do 3 f_equal. lia.
Qed.

(** X7, at a scripted provider: a timeout, then an authentication error. *)
Lemma X7_api_error_fails_fast_witness :
  generate_text
    (scripted [Failed timeout_error;
               Failed {| pe_kind := ApiError;
                         pe_exception := {| type_name := py "AuthenticationError";
                                            text := py "Incorrect API key" |};
                         pe_retry_after := None |}] (Completed (py "never") None))
    (py "prompt") None 3 (new_world (py "gpt-4o"))
  = (Raise (App (OpenAIError (py "Incorrect API key")
                   (Some (Foreign {| type_name := py "AuthenticationError";
                                     text := py "Incorrect API key" |})) 2)),
     {| client := {| total_requests := 0; total_tokens := 0; failed_requests := 1;
                     model := py "gpt-4o" |};
        api_calls := 2%nat; slept := [1] |}).
Proof.
  refine (X7_api_error_fails_fast
    (scripted [Failed timeout_error;
               Failed {| pe_kind := ApiError;
                         pe_exception := {| type_name := py "AuthenticationError";
                                            text := py "Incorrect API key" |};
                         pe_retry_after := None |}] (Completed (py "never") None))
    (py "prompt") None 3 (new_world (py "gpt-4o")) 1%nat _ _ _ eq_refl eq_refl).
  - vm_compute. lia.
  - apply scripted_retryable_prefix. intros i Hi. destruct i as [|i]; [reflexivity|lia].
Defined.

(** ** Validation of a response and the health probe *)

(** X8. [validate_response] accepts a text exactly when the text, trimmed,
    is not empty and has at least [min_length] characters; so it never
    accepts an empty or blank text, even for [min_length] zero or negative,
    and whitespace around the text does not change its answer. *)
Theorem X8_validate_response_on_trimmed_text (text : str) (min_length : Z) :
  (validate_response text min_length = true
   ↔ strip text ≠ [] ∧ min_length ≤ len (strip text))
  ∧ (strip text = [] -> validate_response text min_length = false)
  ∧ validate_response (strip text) min_length = validate_response text min_length.
Proof.
  assert (Hiff : ∀ t, validate_response t min_length = true
                      ↔ strip t ≠ [] ∧ min_length ≤ len (strip t)).
  { intros t. unfold validate_response.
    destruct (bool_decide (t = [])) eqn:E1; cbn.
    { apply bool_decide_eq_true in E1. subst t. split; [done|]. by intros [H _]. }
    destruct (bool_decide (strip t = [])) eqn:E2; cbn.
    { apply bool_decide_eq_true in E2. split; [done|]. by intros [H _]. }
    apply bool_decide_eq_false in E2.
    destruct (Z.ltb_spec (len (strip t)) min_length); split; try done; try lia;
      try (intros [_ ?]; lia). }
  split_and!.
  - apply Hiff.
  - intros He. destruct (validate_response text min_length) eqn:E; [|done].
    apply Hiff in E as [E _]. done.
  - destruct (validate_response text min_length) eqn:E.
    + apply Hiff. rewrite strip_idempotent. by apply Hiff.
    + destruct (validate_response (strip text) min_length) eqn:E'; [|done].
      apply Hiff in E'. rewrite strip_idempotent in E'. apply Hiff in E'. congruence.
Qed.

(** X9. [check_health] never raises: it calls the provider once and answers
    [True] exactly when the call completes.  Whatever the provider does, the
    counters of the client are left as they were and nothing sleeps. *)
Theorem X9_check_health_never_raises (provider : provider_t) (w : World) :
  ∃ healthy,
    check_health provider w = (Ok healthy, called w)
    ∧ (healthy = true
       ↔ ∃ content usage,
           provider (api_calls w) (model (client w)) [(py "user", py "test")]
           = Completed content usage)
    ∧ client (called w) = client w
    ∧ slept (called w) = slept w
    ∧ api_calls (called w) = S (api_calls w).
Proof.
  unfold check_health, bind, chat_completions_create.
  destruct (provider (api_calls w) (model (client w)) [(py "user", py "test")])
    as [content usage|e] eqn:E; cbn.
  - exists true. split_and!; try done. split; [eauto|done].
  - exists false. split_and!; try done. split; [done|]. by intros (? & ? & ?).
Qed.

(** ** Fetching a page *)

Lemma URLFetchError_shape url reason status_code :
  exn_class (URLFetchError url reason status_code) = ClsURLFetchError
  ∧ error_code (URLFetchError url reason status_code) = py "URL_FETCH_ERROR"
  ∧ details (URLFetchError url reason status_code) !! "url" = Some (VStr url).
Proof.
  split_and!; try done.
  unfold URLFetchError. cbn [details SocialPostGeneratorException_init from_option id].
  destruct (truthy_str reason), (truthy_int status_code);
    rewrite ?lookup_insert_ne by done; by rewrite lookup_insert_eq.
Qed.

Section FetchFacts.

Variable max_page_size : Z.
Variable requests_get : str -> requests_outcome.
Variable parse_int : str -> foreign_exception + Z.
Variable response_bool : http_response -> bool.

Let fetch := fetch_html max_page_size requests_get parse_int response_bool.

Lemma fetch_html_outcome url :
  match fetch url with
  | Ok html =>
    ∃ response,
      requests_get url = Responded response
      ∧ html = resp_text response
      ∧ ¬ (400 ≤ resp_status_code response < 600)
      ∧ (∀ content_length n,
           resp_content_length response = Some content_length ->
           content_length ≠ [] ->
           parse_int content_length = inr n -> n ≤ max_page_size)
      ∧ (∀ content_length e,
           resp_content_length response = Some content_length ->
           content_length ≠ [] ->
           parse_int content_length ≠ inl e)
  | Raise e =>
    ∃ reason status_code, e = App (URLFetchError url reason status_code)
  end.
Proof.
  unfold fetch, fetch_html, unexpected_fetch_error, http_error_handler.
  destruct (requests_get url) as [response|[] e]; try by eexists _, _.
  assert (Hstatus :
    match (if (400 <=? resp_status_code response) && (resp_status_code response <? 600)
           then Raise (App (URLFetchError url
                  (Some match (if response_bool response
                               then Some (resp_status_code response) else None) with
                        | Some 404 => py "Страница не найдена (404)"
                        | Some 403 => py "Доступ запрещен (403)"
                        | Some 500 => py "Ошибка сервера (500)"
                        | Some c => py "HTTP ошибка " ++ str_of_int c
                        | None => py "HTTP ошибка None"
                        end)
                  (if response_bool response
                   then Some (resp_status_code response) else None)))
           else Ok (resp_text response)) with
    | Ok html => html = resp_text response ∧ ¬ (400 ≤ resp_status_code response < 600)
    | Raise e => ∃ reason status_code, e = App (URLFetchError url reason status_code)
    end).
  { destruct (Z.leb_spec 400 (resp_status_code response));
      destruct (Z.ltb_spec (resp_status_code response) 600); cbn;
      first [by eexists _, _ | split; [done|lia]]. }
  destruct (resp_content_length response) as [[|c s]|] eqn:Hcl; cbn [truthy_str].
  - destruct (if _ && _ then _ else _) as [html|e]; [|done].
    destruct Hstatus as [-> Hs]. exists response. split_and!; try done.
    + intros cl n0 Hc Hne. rewrite Hcl in Hc. by injection Hc as <-.
    + intros cl e0 Hc Hne. rewrite Hcl in Hc. by injection Hc as <-.
  - destruct (parse_int (c :: s)) as [e|n] eqn:Hp; [by eexists _, _|].
    destruct (Z.ltb_spec max_page_size n); [by eexists _, _|].
    destruct (if _ && _ then _ else _) as [html|e]; [|done].
    destruct Hstatus as [-> Hs]. exists response. split_and!; try done.
    + intros cl n0 Hc Hne Hn. rewrite Hcl in Hc. injection Hc as <-.
      rewrite Hp in Hn. injection Hn as <-. lia.
    + intros cl e0 Hc Hne Hn. rewrite Hcl in Hc. injection Hc as <-.
      rewrite Hp in Hn. discriminate Hn.
  - destruct (if _ && _ then _ else _) as [html|e]; [|done].
    destruct Hstatus as [-> Hs]. exists response. split_and!; try done.
    + intros cl n0 Hc. by rewrite Hcl in Hc.
    + intros cl e0 Hc. by rewrite Hcl in Hc.
Qed.

End FetchFacts.

(** X10. [fetch_html] raises nothing but [URLFetchError], and that error
    names the URL asked for; when it returns, the provider of the page
    answered, the status of the answer is outside 400..599, its
    [content-length], when there is one, is a number not above
    [max_page_size], and what is returned is the text of the answer. *)
Theorem X10_fetch_html_outcome (max_page_size : Z) (requests_get : str -> requests_outcome)
    (parse_int : str -> foreign_exception + Z) (response_bool : http_response -> bool)
    (url : str) :
  match fetch_html max_page_size requests_get parse_int response_bool url with
  | Ok html =>
    ∃ response,
      requests_get url = Responded response
      ∧ html = resp_text response
      ∧ ¬ (400 ≤ resp_status_code response < 600)
      ∧ (∀ content_length n,
           resp_content_length response = Some content_length ->
           content_length ≠ [] ->
           parse_int content_length = inr n -> n ≤ max_page_size)
  | Raise e =>
    ∃ a, e = App a
      ∧ exn_class a = ClsURLFetchError
      ∧ error_code a = py "URL_FETCH_ERROR"
      ∧ details a !! "url" = Some (VStr url)
  end.
Proof.
  pose proof (fetch_html_outcome max_page_size requests_get parse_int response_bool url)
    as H.
  destruct (fetch_html _ _ _ _ url) as [html|e].
  - destruct H as (response & ? & ? & ? & ? & _). by exists response.
  - destruct H as (reason & status_code & ->). eexists. split; [done|].
    apply URLFetchError_shape.
Qed.

(** X11. A page whose [content-length] is above [max_page_size] is refused
    whatever its status is; the [URLFetchError] raised for it inside the
    [try] is caught by the handler of [Exception] and raised again, so the
    error the caller gets has the whole message of the first one as its
    reason and carries no status code. *)
Theorem X11_oversize_page_loses_status (max_page_size : Z)
    (requests_get : str -> requests_outcome) (parse_int : str -> foreign_exception + Z)
    (response_bool : http_response -> bool) (url : str) (response : http_response)
    (content_length : str) (n : Z) :
  requests_get url = Responded response ->
  resp_content_length response = Some content_length ->
  content_length ≠ [] ->
  parse_int content_length = inr n ->
  max_page_size < n ->
  let first :=
    URLFetchError url
      (Some (py "Страница слишком большая: " ++ content_length ++ py " байт"))
      (Some (resp_status_code response)) in
  fetch_html max_page_size requests_get parse_int response_bool url
  = Raise (App (URLFetchError url (Some (message first)) None))
  ∧ details (URLFetchError url (Some (message first)) None) !! "status_code" = None.
Proof.
  intros Hget Hcl Hne Hparse Hbig first. split.
  - unfold fetch_html. rewrite Hget, Hcl.
    destruct content_length as [|c s]; [done|]. cbn [truthy_str]. rewrite Hparse.
    apply Z.ltb_lt in Hbig. by rewrite Hbig.
  - unfold URLFetchError at 1.
    cbn [details SocialPostGeneratorException_init from_option id truthy_int].
    destruct (truthy_str (Some (message first)));
      rewrite ?lookup_insert_ne by done; apply lookup_empty.
Qed.

(** X11, at a page of ten million bytes answered with status 200. *)
Lemma X11_oversize_page_loses_status_witness :
  let response :=
    {| resp_status_code := 200; resp_content_length := Some (py "10000000");
       resp_text := py "<html>" |} in
  let first :=
    URLFetchError (py "https://example.com")
      (Some (py "Страница слишком большая: " ++ py "10000000" ++ py " байт"))
      (Some 200) in
  fetch_html 5242880 (fun _ => Responded response) (fun _ => inr 10000000)
    (fun _ => true) (py "https://example.com")
  = Raise (App (URLFetchError (py "https://example.com") (Some (message first)) None))
  ∧ details (URLFetchError (py "https://example.com") (Some (message first)) None)
    !! "status_code" = None.
Proof.
  refine (X11_oversize_page_loses_status 5242880
    (fun _ => Responded {| resp_status_code := 200;
                           resp_content_length := Some (py "10000000");
                           resp_text := py "<html>" |})
    (fun _ => inr 10000000) (fun _ => true) (py "https://example.com")
    {| resp_status_code := 200; resp_content_length := Some (py "10000000");
       resp_text := py "<html>" |}
    (py "10000000") 10000000 eq_refl eq_refl _ eq_refl _).
  - vm_compute. discriminate.
  - lia.
Defined.

(** ** Extraction *)

Lemma clean_text_trimmed s : trimmed (clean_text s).
Proof. unfold clean_text. apply strip_trimmed. Qed.

Lemma clean_text_fixed s : clean_text (clean_text s) = clean_text s.
Proof.
  pose proof (clean_text_single_spaced s) as Hs.
  destruct (clean_text_trimmed s) as [Hhead Hlast].
  set (t := clean_text s) in *. unfold clean_text, re_sub_plus.
  rewrite py_space, py_newline.
  rewrite (re_sub_runs_fixed false t Hs).
  rewrite (re_sub_runs_absent (N.eqb NEWLINE)).
  - by apply strip_fixed.
  - intros c Hc. apply N.eqb_neq. intros <-. by eapply single_spaced_no_newline.
Qed.

(** X12. The text [extract_text] returns is in the form [clean_text] gives:
    cleaning it again changes nothing, it has no whitespace at either end and
    its only whitespace characters are spaces.  When the parser raises,
    [extract_text] raises [TextExtractionError] with the text of that
    exception as the reason and the literal [unknown] in place of the URL of
    the page. *)
Theorem X12_extract_text_outcome (soup_get_text : str -> foreign_exception + str)
    (html : str) :
  match extract_text soup_get_text html with
  | Ok text =>
    clean_text text = text
    ∧ trimmed text
    ∧ (∀ c, c ∈ text -> isspace c = true -> c = SPACE)
  | Raise e =>
    ∃ raised,
      soup_get_text html = inl raised
      ∧ e = App (TextExtractionError (py "unknown") (Some (text raised)))
      ∧ details (TextExtractionError (py "unknown") (Some (text raised))) !! "url"
        = Some (VStr (py "unknown"))
  end.
Proof.
  unfold extract_text. destruct (soup_get_text html) as [raised|raw].
  - exists raised. split_and!; try done.
  - split_and!.
    + apply clean_text_fixed.
    + apply clean_text_trimmed.
    + intros c Hc Hw.
      by eapply single_spaced_whitespace; [apply clean_text_single_spaced|..].
Qed.

(** ** The style table *)

Lemma STYLES_contains_elem k :
  STYLES_contains k = true ↔ ∃ cfg, (k, cfg) ∈ STYLES.
Proof.
  unfold STYLES_contains. rewrite existsb_exists. split.
  - intros ([k' cfg] & Hin & Hk). apply bool_decide_eq_true in Hk. cbn in Hk. subst.
    exists cfg. by apply list_elem_of_In.
  - intros [cfg Hin]. exists (k, cfg). split; [by apply list_elem_of_In|].
    by apply bool_decide_eq_true.
Qed.

Lemma STYLES_forall (P : str * Style -> bool) :
  forallb P STYLES = true -> ∀ kv, kv ∈ STYLES -> P kv = true.
Proof.
  intros H kv Hin. rewrite forallb_forall in H. by apply H, list_elem_of_In.
Qed.

Lemma style_keys_check :
  forallb (fun kv => negb (bool_decide (kv.1 = []))
                     && bool_decide (strip kv.1 = kv.1)) STYLES = true.
Proof. vm_compute. reflexivity. Qed.

Lemma style_ids_check :
  forallb (fun kv => negb (bool_decide (style_id kv.2 = []))
                     && bool_decide (strip (style_id kv.2) = style_id kv.2)
                     && negb (STYLES_contains (style_id kv.2))) STYLES = true.
Proof. vm_compute. reflexivity. Qed.

Lemma validate_style_of_key lower k cfg :
  (k, cfg) ∈ STYLES -> lower k = k -> validate_style lower (Some k) = k.
Proof.
  intros Hin Hl. pose proof (STYLES_forall _ style_keys_check _ Hin) as Hc.
  cbn [fst snd] in Hc. apply andb_true_iff in Hc as [Hne Hs].
  apply negb_true_iff, bool_decide_eq_false in Hne. apply bool_decide_eq_true in Hs.
  unfold validate_style. destruct k as [|c k]; [done|]. cbn [truthy_str].
  rewrite Hl, Hs.
  assert (STYLES_contains (c :: k) = true) as -> by (apply STYLES_contains_elem; eauto).
  done.
Qed.

Lemma validate_style_of_id lower k cfg :
  (k, cfg) ∈ STYLES -> lower (style_id cfg) = style_id cfg ->
  validate_style lower (Some (style_id cfg)) = k.
Proof.
  intros Hin Hl. pose proof (STYLES_forall _ style_ids_check _ Hin) as Hc.
  cbn [fst snd] in Hc.
  apply andb_true_iff in Hc as [Hc Hnk]. apply andb_true_iff in Hc as [Hne Hs].
  apply negb_true_iff, bool_decide_eq_false in Hne. apply bool_decide_eq_true in Hs.
  apply negb_true_iff in Hnk.
  unfold validate_style. destruct (style_id cfg) as [|c i] eqn:Hid; [done|].
  cbn [truthy_str]. rewrite Hl, Hs, Hnk.
  destruct (find _ STYLES) as [[k' cfg']|] eqn:Hf.
  - apply find_elem_of in Hf as [Hin' Hp]. cbn in Hp. apply bool_decide_eq_true in Hp.
    cbn. eapply style_ids_unique; eauto. congruence.
  - eapply find_none_elem_of in Hf; [|exact Hin]. cbn in Hf.
    apply bool_decide_eq_false in Hf. done.
Qed.

Lemma validate_style_is_key lower style :
  ∃ cfg, (validate_style lower style, cfg) ∈ STYLES.
Proof.
  unfold validate_style.
  assert (Hd : ∃ cfg, (DEFAULT_STYLE, cfg) ∈ STYLES).
  { apply STYLES_contains_elem. vm_compute. reflexivity. }
  destruct (truthy_str style) as [s|]; [|done].
  destruct (STYLES_contains (strip (lower s))) eqn:Hc; [by apply STYLES_contains_elem|].
  destruct (find _ STYLES) as [[k cfg]|] eqn:Hf; [|done].
  apply find_elem_of in Hf as [Hin _]. eauto.
Qed.

(** X13. Every entry of [get_available_styles] describes one style of the
    table, in the order of the table, and the identifier it shows leads
    [validate_style] back to the key of that style, as long as lower-casing
    leaves the identifiers alone. *)
Theorem X13_listed_styles_resolve (lower : str -> str) :
  (∀ kv, kv ∈ STYLES -> lower (style_id kv.2) = style_id kv.2) ->
  length get_available_styles = length STYLES
  ∧ ∀ i entry, get_available_styles !! i = Some entry ->
      ∃ k cfg,
        STYLES !! i = Some (k, cfg)
        ∧ entry !! "id" = Some (VStr (style_id cfg))
        ∧ entry !! "name" = Some (VStr (style_name cfg))
        ∧ entry !! "description" = Some (VStr (style_description cfg))
        ∧ entry !! "emoji" = Some (VStr (style_emoji cfg))
        ∧ dom entry = ({["id"; "name"; "description"; "emoji"]} : gset string)
        ∧ validate_style lower (Some (style_id cfg)) = k.
Proof.
  intros Hlower. unfold get_available_styles. split; [by rewrite length_map|].
  intros i entry Hi. rewrite list_lookup_fmap in Hi.
  destruct (STYLES !! i) as [[k cfg]|] eqn:Hs; [|done].
  cbn in Hi. injection Hi as <-. exists k, cfg.
  assert (Hin : (k, cfg) ∈ STYLES) by (by eapply list_elem_of_lookup_2).
  split_and!;
    first [ done
          | by (rewrite ?lookup_insert_ne by done; rewrite lookup_insert_eq)
          | by (rewrite !dom_insert_L, dom_empty_L; set_solver)
          | idtac ].
  apply (validate_style_of_id lower k cfg Hin). by apply (Hlower (k, cfg)).
Qed.

(** X13, with the lower-casing of Latin and Cyrillic capitals. *)
Lemma X13_listed_styles_resolve_witness :
  length get_available_styles = length STYLES
  ∧ ∀ i entry, get_available_styles !! i = Some entry ->
      ∃ k cfg,
        STYLES !! i = Some (k, cfg)
        ∧ entry !! "id" = Some (VStr (style_id cfg))
        ∧ entry !! "name" = Some (VStr (style_name cfg))
        ∧ entry !! "description" = Some (VStr (style_description cfg))
        ∧ entry !! "emoji" = Some (VStr (style_emoji cfg))
        ∧ dom entry = ({["id"; "name"; "description"; "emoji"]} : gset string)
        ∧ validate_style lower_basic (Some (style_id cfg)) = k.
Proof.
  refine (X13_listed_styles_resolve lower_basic _).
  intros kv Hin.
  apply (bool_decide_eq_true_1 (lower_basic (style_id kv.2) = style_id kv.2)).
  revert kv Hin. apply STYLES_forall. vm_compute. reflexivity.
Defined.

(** X14. [validate_style] is idempotent: what it returns is a key of the
    table, and given back to it, that key is returned unchanged, as long as
    lower-casing leaves the keys alone. *)
Theorem X14_validate_style_idempotent (lower : str -> str) (style : option str) :
  (∀ kv, kv ∈ STYLES -> lower kv.1 = kv.1) ->
  validate_style lower (Some (validate_style lower style)) = validate_style lower style.
Proof.
  intros Hlower. destruct (validate_style_is_key lower style) as [cfg Hin].
  apply (validate_style_of_key lower _ cfg Hin). by apply (Hlower (_, cfg)).
Qed.

(** X14, with the lower-casing of Latin and Cyrillic capitals, at the request
    [MOTIVATIONAL]. *)
Lemma X14_validate_style_idempotent_witness :
  validate_style lower_basic (Some (validate_style lower_basic (Some (py " MOTIVATIONAL "))))
  = validate_style lower_basic (Some (py " MOTIVATIONAL ")).
Proof.
  refine (X14_validate_style_idempotent lower_basic (Some (py " MOTIVATIONAL ")) _).
  intros kv Hin.
  apply (bool_decide_eq_true_1 (lower_basic kv.1 = kv.1)).
  revert kv Hin. apply STYLES_forall. vm_compute. reflexivity.
Defined.

(** ** The outcomes of the pipeline *)

Lemma validate_url_raises validators_url urlparse url e :
  validate_url validators_url urlparse url = Raise e ->
  ∃ u reason, e = App (URLValidationError u reason).
Proof.
  unfold validate_url.
  repeat (match goal with
          | |- context [if ?b then _ else _] => destruct b
          end); intros [= <-]; eauto.
Qed.

Lemma post_max_length_bounds settings max_length :
  400 ≤ post_max_length_of settings max_length ≤ 4000.
Proof.
  unfold post_max_length_of. set (d := default _ _).
  destruct (Z.ltb_spec d 400); [lia|]. destruct (Z.ltb_spec 4000 d); lia.
Qed.

Lemma limit_prompt_text_bound text :
  len (limit_prompt_text text) ≤ 3003
  ∧ (len text ≤ 3000 -> limit_prompt_text text = text)
  ∧ (3000 < len text -> limit_prompt_text text = take 3000 text ++ py "...").
Proof.
  unfold limit_prompt_text, slice_to, len. cbv zeta.
  change (0 <=? 3000) with true. cbv iota.
  change (Z.to_nat 3000) with 3000%nat.
  destruct (Z.ltb_spec 3000 (Z.of_nat (length text))).
  - split_and!; [|lia|done].
    rewrite length_app, length_take. change (length (py "...")) with 3%nat. lia.
  - split_and!; [lia|done|lia].
Qed.

Lemma finish_post_trimmed n t :
  0 < n -> trimmed t -> trimmed (finish_post n t).
Proof.
  intros Hn Ht. pose proof (strip_fixed t Ht) as Hfix.
  destruct (Z.le_gt_cases (len (strip t)) n) as [Hle|Hgt].
  { rewrite finish_post_within by done. by rewrite Hfix. }
  destruct (finish_post_truncated n t ltac:(lia)) as (h & -> & _ & _ & Hcut).
  rewrite Hfix in *. destruct Ht as [Hhead Hlast].
  assert (Hcons : ∃ c rest, take (Z.to_nat n) t = c :: rest ∧ head t = Some c).
  { destruct t as [|c t]; [unfold len in Hgt; cbn [length] in Hgt; lia|].
    destruct (Z.to_nat n) as [|k] eqn:Hk; [lia|]. cbn. eauto. }
  destruct Hcons as (c & rest & Hc & Hhc).
  split.
  - intros x Hx. destruct h as [|a h].
    + destruct Hcut as [(t' & Ht' & _)|[Hh _]].
      * rewrite Hc in Ht'. cbn in Ht'. injection Ht' as -> _.
        pose proof (Hhead _ Hhc) as Hs. by rewrite isspace_SPACE in Hs.
      * rewrite Hc in Hh. done.
    + cbn in Hx. injection Hx as <-.
      assert (a = c) as ->.
      { destruct Hcut as [(t' & Ht' & _)|[Hh _]]; rewrite Hc in *; cbn in *; congruence. }
      by apply Hhead.
  - intros x Hx. rewrite last_app in Hx. vm_compute in Hx. by injection Hx as <-.
Qed.

Section PipelineOutcome.

Variable settings : Settings.
Variable lower : str -> str.
Variable validators_url : str -> bool.
Variable urlparse : str -> ParseResult.
Variable fetch_html : str -> result str.
Variable soup_get_text : str -> foreign_exception + str.
Variable provider : provider_t.

Hypothesis fetch_raises :
  ∀ u e, fetch_html u = Raise e ->
    ∃ reason status_code, e = App (URLFetchError u reason status_code).

Lemma generate_post_outcome url style max_length w :
  let rw := generate_post settings lower validators_url urlparse fetch_html
              soup_get_text provider url style max_length w in
  match rw.1 with
  | Ok post =>
    ∃ t, trimmed t
      ∧ post = finish_post (post_max_length_of settings max_length) t
      ∧ total_requests (client rw.2) = total_requests (client w) + 1
      ∧ failed_requests (client rw.2) = failed_requests (client w)
  | Raise e =>
    ((∃ u reason, e = App (URLValidationError u reason))
     ∨ (∃ u reason status_code, e = App (URLFetchError u reason status_code))
     ∨ (∃ u reason, e = App (TextExtractionError u reason))) ∧ rw.2 = w
    ∨ (∃ u cause,
         validate_url validators_url urlparse url = Ok u
         ∧ client_failure cause
         ∧ e = App (PostGenerationError (exception_str cause) (Some u)
                      (Some (validate_style lower style)))
         ∧ total_requests (client rw.2) = total_requests (client w)
         ∧ failed_requests (client rw.2) = failed_requests (client w) + 1
         ∧ total_tokens (client rw.2) = total_tokens (client w))
  end.
Proof.
  cbv zeta.
  destruct (generate_post _ _ _ _ _ _ _ url style max_length w) as [r w'] eqn:Hrw.
  cbn [fst snd]. unfold generate_post in Hrw.
  unfold bind at 1, lift at 1 in Hrw.
  destruct (validate_url validators_url urlparse url) as [u|e] eqn:Hu.
  2: { injection Hrw as <- <-. apply validate_url_raises in Hu as (u' & r & ->).
       left. split; [left; eauto|done]. }
  destruct (validate_style_in_table lower style) as [cfg Hcfg].
  unfold bind at 1, lift at 1 in Hrw. rewrite Hcfg in Hrw.
  unfold bind at 1, lift at 1 in Hrw.
  destruct (fetch_html u) as [html|e] eqn:Hf.
  2: { injection Hrw as <- <-. apply fetch_raises in Hf as (reason & sc & ->).
       left. split; [right; left; eauto|done]. }
  unfold bind at 1, lift at 1, extract_text in Hrw.
  destruct (soup_get_text html) as [ex|raw].
  { injection Hrw as <- <-. left. split; [right; right; eauto|done]. }
  unfold bind at 1, lift at 1, validate_text_length in Hrw.
  destruct (len (clean_text raw) <? min_text_length settings).
  { injection Hrw as <- <-. left. split; [right; right; eauto|done]. }
  unfold bind at 1, try_except in Hrw.
  pose proof (generate_text_result provider
    (render_user_prompt cfg (post_max_length_of settings max_length)
       (limit_prompt_text (clean_text raw)))
    (Some (system_prompt cfg)) 3 w) as Hg.
  cbv zeta in Hg.
  destruct (generate_text _ _ _ _ w) as [[t|cause] w1]; cbn [fst snd] in *.
  - injection Hrw as <- <-. destruct Hg as (_ & Ht & Htot & Hfail).
    exists t. by split_and!.
  - injection Hrw as <- <-. destruct Hg as (_ & Hc & Htot & Hfail & Htok).
    right. exists u, cause. by split_and!.
Qed.

End PipelineOutcome.

Lemma fetch_html_raises max_page_size requests_get parse_int response_bool u e :
  fetch_html max_page_size requests_get parse_int response_bool u = Raise e ->
  ∃ reason status_code, e = App (URLFetchError u reason status_code).
Proof.
  intros H.
  pose proof (fetch_html_outcome max_page_size requests_get parse_int response_bool u)
    as Ho.
  cbv zeta in Ho. by rewrite H in Ho.
Qed.

Lemma PostGenerationError_shape reason url style :
  exn_class (PostGenerationError reason url style) = ClsPostGenerationError
  ∧ error_code (PostGenerationError reason url style) = py "POST_GENERATION_ERROR"
  ∧ details (PostGenerationError reason url style) !! "reason" = Some (VStr reason).
Proof.
  split_and!; try done.
  unfold PostGenerationError. cbn [details SocialPostGeneratorException_init from_option id].
  destruct (truthy_str url), (truthy_str style);
    rewrite ?lookup_insert_ne by done; by rewrite lookup_insert_eq.
Qed.

(** X15. Every run of [generate_post] (with [fetch_html] as the fetcher)
    ends in one of three ways.  It returns a post: the post has no whitespace
    at either end and at most three characters more than [post_max_length]
    (so never more than 4003), it ends in the ellipsis when it is longer than
    [post_max_length], and one successful request has been counted.  Or it
    raises [URLValidationError], [URLFetchError] or [TextExtractionError]
    and nothing has changed: no counter, no call of the provider, no sleep.
    Or it raises [PostGenerationError], whose reason is the text of an
    [OpenAIError] or [RateLimitError] of the client, and one failed request
    has been counted.  No other exception leaves [generate_post]; in
    particular the errors of the client never do. *)
Theorem X15_generate_post_outcome (settings : Settings) (lower : str -> str)
    (validators_url : str -> bool) (urlparse : str -> ParseResult)
    (max_page_size : Z) (requests_get : str -> requests_outcome)
    (parse_int : str -> foreign_exception + Z) (response_bool : http_response -> bool)
    (soup_get_text : str -> foreign_exception + str) (provider : provider_t)
    (url : str) (style : option str) (max_length : option Z) (w : World) :
  let rw :=
    generate_post settings lower validators_url urlparse
      (fetch_html max_page_size requests_get parse_int response_bool)
      soup_get_text provider url style max_length w in
  let post_max_length := post_max_length_of settings max_length in
  match rw.1 with
  | Ok post =>
    trimmed post
    ∧ len post ≤ post_max_length + 3
    ∧ len post ≤ 4003
    ∧ (post_max_length < len post -> ∃ h, post = h ++ py "...")
    ∧ total_requests (client rw.2) = total_requests (client w) + 1
    ∧ failed_requests (client rw.2) = failed_requests (client w)
  | Raise e =>
    ∃ a, e = App a
      ∧ (((exn_class a = ClsURLValidationError ∧ error_code a = py "VALIDATION_ERROR")
          ∨ (exn_class a = ClsURLFetchError ∧ error_code a = py "URL_FETCH_ERROR")
          ∨ (exn_class a = ClsTextExtractionError
             ∧ error_code a = py "TEXT_EXTRACTION_ERROR"))
         ∧ rw.2 = w
         ∨ (exn_class a = ClsPostGenerationError
            ∧ error_code a = py "POST_GENERATION_ERROR"
            ∧ (∃ cause, client_failure cause
                 ∧ details a !! "reason" = Some (VStr (exception_str cause)))
            ∧ total_requests (client rw.2) = total_requests (client w)
            ∧ failed_requests (client rw.2) = failed_requests (client w) + 1
            ∧ total_tokens (client rw.2) = total_tokens (client w)))
  end.
Proof.
  intros rw pm.
  pose proof (generate_post_outcome settings lower validators_url urlparse
    (fetch_html max_page_size requests_get parse_int response_bool) soup_get_text provider
    (fetch_html_raises max_page_size requests_get parse_int response_bool)
    url style max_length w) as H.
  cbv zeta in H. fold rw pm in H.
  pose proof (post_max_length_bounds settings max_length) as Hpm. fold pm in Hpm.
  destruct (rw.1) as [post|e].
  - destruct H as (t & Ht & -> & Htot & Hfail).
    pose proof (strip_fixed t Ht) as Hfix.
    assert (Hshape : len (finish_post pm t) ≤ pm + 3
                     ∧ (pm < len (finish_post pm t) -> ∃ h, finish_post pm t = h ++ py "...")).
    { destruct (Z.le_gt_cases (len (strip t)) pm) as [Hle|Hgt].
      - rewrite finish_post_within by done. rewrite Hfix in *. split; lia.
      - destruct (finish_post_truncated pm t ltac:(lia)) as (h & Hh & _ & Hlen & _).
        split; [done|]. intros _. by exists h. }
    destruct Hshape as [Hlen Hell].
    split_and!; try done; [apply finish_post_trimmed; [lia|done]|lia].
  - destruct H as [[Hk ->]|(u & cause & Hu & Hc & -> & Htot & Hfail & Htok)].
    + destruct Hk as [(u & r & ->)|[(u & r & sc & ->)|(u & r & ->)]];
        eexists; (split; [done|]); left; (split; [|done]).
      * left. done.
      * right; left. done.
      * right; right. done.
    + eexists. split; [done|]. right.
      destruct (PostGenerationError_shape (exception_str cause) (Some u)
                  (Some (validate_style lower style))) as (S1 & S2 & S3).
      split_and!; try done. by exists cause.
Qed.

(** ** The endpoint *)




(** ** The rate limiter *)

Lemma filter_after_filter (c c' : Z) (l : list Z) :
  c ≤ c' ->
  List.filter (fun t => c' <? t) (List.filter (fun t => c <? t) l)
  = List.filter (fun t => c' <? t) l.
Proof.
  intros Hc. induction l as [|t l IH]; [done|]. cbn.
  destruct (Z.ltb_spec c t); cbn.
  - by rewrite IH.
  - destruct (Z.ltb_spec c' t); [lia|done].
Qed.

(** The times at which requests of [key] were let through. *)
Lemma recent_as_times (key : str) (cutoff : Z) (admitted : list (Z * str)) :
  length (List.filter (fun r => bool_decide (r.2 = key) && (cutoff <? r.1)) admitted)
  = length (List.filter (fun t => cutoff <? t)
              (List.map fst (List.filter (fun r => bool_decide (r.2 = key)) admitted))).
Proof.
  induction admitted as [|[t k] l IH]; [done|]. cbn.
  destruct (bool_decide (k = key)); cbn; [|done].
  destruct (cutoff <? t); cbn; by rewrite IH.
Qed.

Lemma serve_admits_by_count calls : ∀ self admitted last,
  limiter_tracks self admitted last ->
  clock_nondecreasing last calls ->
  serve self calls
  = admit_by_count (max_requests self) (window_seconds self) admitted calls.
Proof.
  induction calls as [|[now key] rest IH]; intros self admitted last Hinv Hclock; [done|].
  destruct Hclock as [Hlast Hrest]. cbn [serve admit_by_count].
  set (cutoff := now - timedelta_seconds (window_seconds self)).
  assert (Hkept :
    List.filter (fun t => cutoff <? t) (default [] (requests self !! key))
    = List.filter (fun t => cutoff <? t)
        (List.map fst (List.filter (fun r => bool_decide (r.2 = key)) admitted))).
  { apply Hinv. unfold cutoff. lia. }
  unfold is_allowed. fold cutoff. rewrite recent_as_times, <- Hkept.
  set (kept := List.filter (fun t => cutoff <? t) (default [] (requests self !! key))) in *.
  destruct (max_requests self <=? Z.of_nat (length kept)); cbn [fst snd]; f_equal.
  - rewrite (IH _ admitted now); [done| |done].
    intros key' c' Hc'. cbn [requests window_seconds] in *.
    destruct (decide (key' = key)) as [->|Hne].
    + rewrite lookup_insert_eq. cbn. unfold kept.
      rewrite filter_after_filter by (unfold cutoff; lia).
      apply Hinv. lia.
    + rewrite lookup_insert_ne by done. apply Hinv. lia.
  - rewrite (IH _ (admitted ++ [(now, key)]) now); [done| |done].
    intros key' c' Hc'. cbn [requests window_seconds] in *.
    rewrite List.filter_app, List.map_app, List.filter_app.
    destruct (decide (key' = key)) as [->|Hne].
    + rewrite lookup_insert_eq. cbn [default from_option id].
      rewrite List.filter_app. unfold kept.
      rewrite filter_after_filter by (unfold cutoff; lia).
      rewrite (Hinv key c') by lia. f_equal. cbn.
      by rewrite bool_decide_eq_true_2.
    + rewrite lookup_insert_ne by done. rewrite (Hinv key' c') by lia.
      cbn. rewrite bool_decide_eq_false_2 by done. cbn. by rewrite app_nil_r.
Qed.

(** X17. As long as the clock never goes back, [SimpleRateLimiter] lets a
    request through exactly when fewer than [max_requests] requests of the
    same key were let through during the [window_seconds] before it.  The
    times it forgets on the way never matter, requests refused are not
    counted, and keys do not affect each other. *)
Theorem X17_rate_limiter_counts_window (max_requests window_seconds start : Z)
    (calls : list (Z * str)) :
  clock_nondecreasing start calls ->
  serve (SimpleRateLimiter_init max_requests window_seconds) calls
  = admit_by_count max_requests window_seconds [] calls.
Proof.
  intros Hclock.
  apply (serve_admits_by_count calls (SimpleRateLimiter_init max_requests window_seconds)
           [] start); [|done].
  intros key cutoff _. cbn. by rewrite lookup_empty.
Qed.

(** X17, at two requests a minute: three requests of one address within a
    minute and one of another, then a request of the first one a minute
    later. *)
Lemma X17_rate_limiter_counts_window_witness :
  serve (SimpleRateLimiter_init 2 60)
    [(0, py "10.0.0.1"); (1000000, py "10.0.0.1"); (2000000, py "10.0.0.1");
     (3000000, py "10.0.0.2"); (60000001, py "10.0.0.1")]
  = admit_by_count 2 60 []
    [(0, py "10.0.0.1"); (1000000, py "10.0.0.1"); (2000000, py "10.0.0.1");
     (3000000, py "10.0.0.2"); (60000001, py "10.0.0.1")].
Proof.
  refine (X17_rate_limiter_counts_window 2 60 0 _ _). cbn. lia.
Defined.

Example rate_limiter_example :
  serve (SimpleRateLimiter_init 2 60)
    [(0, py "10.0.0.1"); (1000000, py "10.0.0.1"); (2000000, py "10.0.0.1");
     (3000000, py "10.0.0.2"); (60000001, py "10.0.0.1")]
  = [true; true; false; true; true].
Proof. vm_compute. reflexivity. Qed.

Lemma filter_length_le (p : Z -> bool) (l : list Z) :
  (length (List.filter p l) ≤ length l)%nat.
Proof. induction l as [|t l IH]; cbn; [lia|]. destruct (p t); cbn; lia. Qed.

Lemma is_allowed_keeps_bound self now key :
  0 ≤ max_requests self ->
  (∀ k, Z.of_nat (length (default [] (requests self !! k))) ≤ max_requests self) ->
  let self' := (is_allowed self now key).2 in
  max_requests self' = max_requests self
  ∧ window_seconds self' = window_seconds self
  ∧ (∀ k, Z.of_nat (length (default [] (requests self' !! k))) ≤ max_requests self)
  ∧ dom (requests self') = {[key]} ∪ dom (requests self)
  ∧ (∀ k, k ≠ key -> requests self' !! k = requests self !! k).
Proof.
  intros Hmax Hinv. unfold is_allowed.
  set (kept := List.filter _ (default [] (requests self !! key))).
  pose proof (filter_length_le
    (fun req_time => now - timedelta_seconds (window_seconds self) <? req_time)
    (default [] (requests self !! key))) as Hle. fold kept in Hle.
  specialize (Hinv key) as Hk.
  destruct (Z.leb_spec (max_requests self) (Z.of_nat (length kept))) as [Hfull|Hroom];
    cbn [snd max_requests window_seconds requests]; split_and!; try done.
  - intros k. destruct (decide (k = key)) as [->|Hne].
    + rewrite lookup_insert_eq. cbn. lia.
    + rewrite lookup_insert_ne by done. apply Hinv.
  - by rewrite dom_insert_L.
  - intros k Hne. by rewrite lookup_insert_ne.
  - intros k. destruct (decide (k = key)) as [->|Hne].
    + rewrite lookup_insert_eq. cbn. rewrite length_app. cbn. lia.
    + rewrite lookup_insert_ne by done. apply Hinv.
  - by rewrite dom_insert_L.
  - intros k Hne. by rewrite lookup_insert_ne.
Qed.

(** X18. Whatever the times of the calls are, a limiter with
    [max_requests] at least zero never keeps more than [max_requests] times
    under a key; a call for a key changes nothing under the other keys; and
    the limiter keeps an entry for every key it was ever asked about, also
    for those it refused. *)
Theorem X18_rate_limiter_table (limit window : Z)
    (calls : list (Z * str)) :
  0 ≤ limit ->
  let self := serve_state (SimpleRateLimiter_init limit window) calls in
  (∀ key, Z.of_nat (length (default [] (requests self !! key))) ≤ limit)
  ∧ dom (requests self) = list_to_set (List.map snd calls).
Proof.
  intros Hmax.
  assert (Hgen : ∀ self0,
    max_requests self0 = limit ->
    (∀ k, Z.of_nat (length (default [] (requests self0 !! k))) ≤ limit) ->
    (∀ key, Z.of_nat (length (default [] (requests (serve_state self0 calls) !! key)))
            ≤ limit)
    ∧ dom (requests (serve_state self0 calls))
      = list_to_set (List.map snd calls) ∪ dom (requests self0)).
  { induction calls as [|[now key] rest IH]; intros self0 Hm Hinv.
    - cbn. split; [done|]. by rewrite (left_id_L ∅ (∪)).
    - cbn [serve_state List.map snd list_to_set].
      destruct (is_allowed_keeps_bound self0 now key) as (Hm' & _ & Hinv' & Hdom & _).
      { by rewrite Hm. }
      { by rewrite Hm. }
      rewrite Hm in Hinv'.
      destruct (IH (is_allowed self0 now key).2 ltac:(congruence) Hinv') as [H1 H2].
      split; [done|]. rewrite H2, Hdom.
      rewrite (assoc_L (∪)). f_equal. apply (comm_L (∪)). }
  destruct (Hgen (SimpleRateLimiter_init limit window) eq_refl) as [H1 H2].
  { intros k. cbn. rewrite lookup_empty. cbn. lia. }
  cbv zeta. split; [done|]. rewrite H2. cbn [SimpleRateLimiter_init requests].
  by rewrite dom_empty_L, (right_id_L ∅ (∪)).
Qed.

(** X18, at two requests a minute and three requests of one address. *)
Lemma X18_rate_limiter_table_witness :
  let self :=
    serve_state (SimpleRateLimiter_init 2 60)
      [(0, py "10.0.0.1"); (1, py "10.0.0.1"); (2, py "10.0.0.1")] in
  (∀ key, Z.of_nat (length (default [] (requests self !! key))) ≤ 2)
  ∧ dom (requests self)
    = list_to_set (List.map snd [(0, py "10.0.0.1"); (1, py "10.0.0.1"); (2, py "10.0.0.1")]).
Proof.
  refine (X18_rate_limiter_table 2 60
    [(0, py "10.0.0.1"); (1, py "10.0.0.1"); (2, py "10.0.0.1")] _). lia.
Defined.

(** ** The allowed origins *)

Lemma split_char_absent sep s : sep ∉ s -> split_char sep s = [s].
Proof.
  induction s as [|c s IH]; intros Hs; [done|].
  apply not_elem_of_cons in Hs as [Hc Hs]. cbn.
  destruct (N.eqb_spec c sep); [congruence|]. by rewrite IH.
Qed.

Lemma split_char_app sep x s :
  sep ∉ x -> split_char sep (x ++ sep :: s) = x :: split_char sep s.
Proof.
  induction x as [|c x IH]; intros Hx; cbn.
  - by rewrite N.eqb_refl.
  - apply not_elem_of_cons in Hx as [Hc Hx].
    destruct (N.eqb_spec c sep); [congruence|]. by rewrite IH.
Qed.

Lemma split_char_join sep items :
  items ≠ [] -> Forall (fun x => sep ∉ x) items ->
  split_char sep (join [sep] items) = items.
Proof.
  intros Hne Hall. induction Hall as [|x rest Hx Hrest IH]; [done|].
  destruct rest as [|y rest].
  - cbn. by apply split_char_absent.
  - change (join [sep] (x :: y :: rest)) with (x ++ sep :: join [sep] (y :: rest)).
    rewrite split_char_app by done. f_equal. by apply IH.
Qed.

Lemma split_char_nonempty sep s : split_char sep s ≠ [].
Proof.
  destruct s as [|c s]; cbn; [done|].
  destruct (c =? sep)%N; [done|]. by destruct (split_char sep s).
Qed.

(** X19. [get_allowed_origins_list] undoes the joining of origins with
    commas: for a setting made of one or more comma-free origins joined by
    commas it gives back these origins, each trimmed.  For any setting,
    also the empty one, the list it gives is not empty and every origin in
    it is trimmed. *)
Theorem X19_allowed_origins_round_trip (origins : list str) :
  origins ≠ [] ->
  Forall (fun origin => COMMA ∉ origin) origins ->
  get_allowed_origins_list (join (py ",") origins) = map strip origins
  ∧ (∀ setting, get_allowed_origins_list setting ≠ []
                ∧ Forall trimmed (get_allowed_origins_list setting)).
Proof.
  intros Hne Hall. split.
  - unfold get_allowed_origins_list. change (py ",") with [COMMA].
    by rewrite split_char_join.
  - intros setting. unfold get_allowed_origins_list. split.
    + pose proof (split_char_nonempty COMMA setting). by destruct (split_char _ _).
    + apply Forall_fmap, Forall_forall. intros x _. apply strip_trimmed.
Qed.

(** X19, at the default setting of [allowed_origins], written with a space
    after the comma. *)
Lemma X19_allowed_origins_round_trip_witness :
  get_allowed_origins_list
    (join (py ",") [py "http://localhost:8082"; py " http://127.0.0.1:8082"])
  = map strip [py "http://localhost:8082"; py " http://127.0.0.1:8082"]
  ∧ (∀ setting, get_allowed_origins_list setting ≠ []
                ∧ Forall trimmed (get_allowed_origins_list setting)).
Proof.
  refine (X19_allowed_origins_round_trip
    [py "http://localhost:8082"; py " http://127.0.0.1:8082"] _ _).
  - discriminate.
  - repeat constructor; intros H; apply list_elem_of_In in H; vm_compute in H;
      intuition discriminate.
Defined.

Example allowed_origins_default :
  get_allowed_origins_list (py "http://localhost:8082,http://127.0.0.1:8082")
  = [py "http://localhost:8082"; py "http://127.0.0.1:8082"]
  ∧ get_allowed_origins_list [] = [[]].
Proof. vm_compute. done. Qed.

(** ** The user-facing messages *)

Lemma taxonomy_class_of_code e code :
  taxonomy_failure e code ->
  code = _default_error_code (exn_class e)
  ∧ exn_class e ≠ ClsSocialPostGeneratorException
  ∧ exn_class e ≠ ClsValidationError
  ∧ user_message e = class_user_message (exn_class e).
Proof.
  destruct 1;
    try (unfold RateLimitError; destruct (truthy_int retry_after));
    (split_and!; [vm_compute; reflexivity|discriminate|discriminate
                 |vm_compute; reflexivity]).
Qed.

Lemma error_code_determines_class c1 c2 :
  c1 ≠ ClsValidationError -> c2 ≠ ClsValidationError ->
  _default_error_code c1 = _default_error_code c2 -> c1 = c2.
Proof.
  intros H1 H2 H. destruct c1, c2; try done; vm_compute in H; discriminate H.
Qed.

(** X20. The user-facing message of a failure of the taxonomy depends on
    its kind alone: two failures of one kind have the same message and the
    same [error] entry in their dictionaries, whatever URL, reason, status,
    provider error or retry hint they were built with. *)
Theorem X20_user_message_fixed_by_kind (e1 e2 : app_exception) (code : str) :
  taxonomy_failure e1 code ->
  taxonomy_failure e2 code ->
  exn_class e1 = exn_class e2
  ∧ user_message e1 = user_message e2
  ∧ to_dict e1 !! "error" = to_dict e2 !! "error".
Proof.
  intros H1 H2.
  destruct (taxonomy_class_of_code e1 code H1) as (C1 & _ & V1 & M1).
  destruct (taxonomy_class_of_code e2 code H2) as (C2 & _ & V2 & M2).
  assert (Hc : exn_class e1 = exn_class e2).
  { apply error_code_determines_class; congruence. }
  assert (Hm : user_message e1 = user_message e2) by (by rewrite M1, M2, Hc).
  split_and!; try done.
  destruct (taxonomy_details_fresh e1 code H1) as (A1 & A2 & A3).
  destruct (taxonomy_details_fresh e2 code H2) as (B1 & B2 & B3).
  destruct (to_dict_lookups e1 A1 A2 A3) as (_ & -> & _).
  destruct (to_dict_lookups e2 B1 B2 B3) as (_ & -> & _).
  by rewrite Hm.
Qed.

(** X20, at two fetch failures. *)
Lemma X20_user_message_fixed_by_kind_witness :
  exn_class (URLFetchError (py "https://a.example") (Some (py "timed out")) None)
  = exn_class (URLFetchError (py "https://b.example") None (Some 404))
  ∧ user_message (URLFetchError (py "https://a.example") (Some (py "timed out")) None)
    = user_message (URLFetchError (py "https://b.example") None (Some 404))
  ∧ to_dict (URLFetchError (py "https://a.example") (Some (py "timed out")) None) !! "error"
    = to_dict (URLFetchError (py "https://b.example") None (Some 404)) !! "error".
Proof.
  exact (X20_user_message_fixed_by_kind _ _ _
    (tf_URLFetch (py "https://a.example") (Some (py "timed out")) None)
    (tf_URLFetch (py "https://b.example") None (Some 404))).
Defined.

(** ** The pipeline when every step passes *)

(** X21. When the URL is valid, the page is fetched, the cleaned text has at
    least [min_text_length] characters (exactly that many is enough) and the
    first call of the provider completes, [generate_post] returns the
    content of that call, trimmed and cut to [post_max_length], after one
    call and no sleep; one successful request and the reported tokens are
    counted.  What the provider was sent is the system prompt of the resolved
    style and the user prompt rendered from its template, the effective
    maximum and the cleaned text cut to 3000 characters. *)
Theorem X21_generate_post_first_attempt (settings : Settings) (lower : str -> str)
    (validators_url : str -> bool) (urlparse : str -> ParseResult)
    (fetch_html : str -> result str) (soup_get_text : str -> foreign_exception + str)
    (provider : provider_t) (url : str) (style : option str) (max_length : option Z)
    (w : World) (u html raw : str) (cfg : Style) (content : str) (usage : option Z) :
  validate_url validators_url urlparse url = Ok u ->
  fetch_html u = Ok html ->
  soup_get_text html = inr raw ->
  min_text_length settings ≤ len (clean_text raw) ->
  STYLES_getitem (validate_style lower style) = Ok cfg ->
  provider (api_calls w) (model (client w))
    (chat_messages
       (render_user_prompt cfg (post_max_length_of settings max_length)
          (limit_prompt_text (clean_text raw)))
       (Some (system_prompt cfg)))
  = Completed content usage ->
  generate_post settings lower validators_url urlparse fetch_html soup_get_text provider
    url style max_length w
  = (Ok (finish_post (post_max_length_of settings max_length) (strip content)),
     {| client :=
          {| total_requests := total_requests (client w) + 1;
             total_tokens := total_tokens (client w) + default 0 usage;
             failed_requests := failed_requests (client w);
             model := model (client w) |};
        api_calls := S (api_calls w);
        slept := slept w |}).
Proof.
  intros Hu Hf Hs Hlen Hcfg Hp.
  by rewrite (generate_post_completed settings lower validators_url urlparse fetch_html
                soup_get_text provider url style max_length w u html raw cfg content usage).
Qed.

(** X21, at a page of exactly 100 characters and a short post. *)
Lemma X21_generate_post_first_attempt_witness :
  generate_post default_settings lower_basic accept_url parse_https fetch_page
    (page_text (repeat 97%N 100))
    (scripted [Completed (py "  A short post. ") (Some 57)] (Failed timeout_error))
    (py " https://example.com ") (Some (py "Professional")) None (new_world (py "gpt-4o"))
  = (Ok (finish_post (post_max_length_of default_settings None)
           (strip (py "  A short post. "))),
     {| client := {| total_requests := 0 + 1; total_tokens := 0 + default 0 (Some 57);
                     failed_requests := 0; model := py "gpt-4o" |};
        api_calls := 1%nat; slept := [] |}).
Proof.
  refine (X21_generate_post_first_attempt default_settings lower_basic accept_url
    parse_https fetch_page (page_text (repeat 97%N 100))
    (scripted [Completed (py "  A short post. ") (Some 57)] (Failed timeout_error))
    (py " https://example.com ") (Some (py "Professional")) None (new_world (py "gpt-4o"))
    (py "https://example.com") (py "<html><body>...</body></html>") (repeat 97%N 100)
    _ (py "  A short post. ") (Some 57) _ eq_refl eq_refl _ _ eq_refl).
  - vm_compute. reflexivity.
  - vm_compute. discriminate.
  - vm_compute. reflexivity.
Defined.

(** ** Replacement and the prompt *)

Lemma mismatch_within_startswith old s rest :
  mismatch_within old s = true -> startswith old (s ++ rest) = false.
Proof.
  revert s. induction old as [|a old IH]; intros [|b s] H; try done.
  cbn in *. destruct (N.eqb_spec a b); cbn in *; [|done]. by apply IH.
Qed.

Lemma replace_from_no_match old new s rest :
  no_match_in old s = true ->
  replace_from old new O (s ++ rest) = s ++ replace_from old new O rest.
Proof.
  induction s as [|c s IH]; intros H; [done|].
  cbn [no_match_in] in H. apply andb_true_iff in H as [Hm Hs].
  change ((c :: s) ++ rest) with (c :: (s ++ rest)). cbn [replace_from].
  change (c :: s ++ rest) with ((c :: s) ++ rest).
  rewrite (mismatch_within_startswith old (c :: s) rest Hm). cbn. by rewrite IH.
Qed.

Lemma startswith_app old rest : startswith old (old ++ rest) = true.
Proof. induction old as [|a old IH]; [done|]. cbn. by rewrite N.eqb_refl. Qed.

Lemma replace_from_skip old new s rest :
  replace_from old new (length s) (s ++ rest) = replace_from old new O rest.
Proof. induction s as [|c s IH]; [done|]. cbn. apply IH. Qed.

Lemma replace_from_match old new rest :
  old ≠ [] ->
  replace_from old new O (old ++ rest) = new ++ replace_from old new O rest.
Proof.
  intros Hne. destruct old as [|a old]; [done|].
  change ((a :: old) ++ rest) with (a :: (old ++ rest)). cbn [replace_from].
  change (a :: old ++ rest) with ((a :: old) ++ rest).
  rewrite startswith_app. cbn [length Nat.pred]. by rewrite replace_from_skip.
Qed.

Lemma replace_in_frame old new field before after text :
  old ≠ [] -> field ≠ [] ->
  no_match_in old before = true ->
  no_match_in old after = true ->
  no_match_in field (before ++ old ++ after) = true ->
  replace_from old new O (replace_from field text O (before ++ old ++ after ++ field))
  = before ++ new ++ after ++ replace_from old new O text.
Proof.
  intros Ho Hf N1 N2 N3.
  replace (before ++ old ++ after ++ field)
    with ((before ++ old ++ after) ++ field ++ [])
    by (by rewrite app_nil_r, <- !app_assoc).
  rewrite (replace_from_no_match field text _ _ N3).
  rewrite (replace_from_match field text [] Hf). cbn [replace_from].
  rewrite app_nil_r, <- !app_assoc.
  rewrite (replace_from_no_match old new _ _ N1).
  rewrite (replace_from_match old new _ Ho).
  by rewrite (replace_from_no_match old new _ _ N2).
Qed.

Lemma render_user_prompt_eq cfg n text :
  render_user_prompt cfg n text
  = replace default_length_phrase (length_phrase n)
      (format_text (user_prompt_template cfg) text).
Proof. unfold render_user_prompt, default_length_phrase, length_phrase. reflexivity. Qed.

Lemma render_user_prompt_frame cfg before after n text :
  template_frame (user_prompt_template cfg) = Some (before, after) ->
  user_prompt_template cfg = before ++ default_length_phrase ++ after ++ py "{text}"
  ∧ render_user_prompt cfg n text
    = before ++ length_phrase n ++ after
      ++ replace default_length_phrase (length_phrase n) text.
Proof.
  unfold template_frame.
  destruct (str_find _ _) as [i|]; [|done]. cbv zeta.
  set (b := take i _). set (a := drop _ _). clearbody b a.
  destruct (bool_decide _ && _ && _ && _) eqn:E; [|done]. intros [= <- <-].
  apply andb_true_iff in E as [E N3]. apply andb_true_iff in E as [E N2].
  apply andb_true_iff in E as [E N1]. apply bool_decide_eq_true in E.
  split; [done|].
  rewrite render_user_prompt_eq. unfold format_text, replace. rewrite E.
  apply replace_in_frame; try done; by vm_compute.
Qed.

Lemma templates_framed :
  forallb (fun kv => bool_decide (is_Some (template_frame (user_prompt_template kv.2))))
    STYLES = true.
Proof. vm_compute. reflexivity. Qed.

(** X22. For every style of the table and every effective maximum, the user
    prompt is the template of the style with its phrase [максимум 800
    символов] replaced by the phrase with the effective maximum and its
    field [{text}] by the page text.  The same replacement also runs over the
    page text: wherever the page itself says [максимум 800 символов], the
    prompt says the effective maximum instead. *)
Theorem X22_user_prompt_states_maximum :
  Forall (fun kv =>
    ∃ before after,
      user_prompt_template kv.2
      = before ++ default_length_phrase ++ after ++ py "{text}"
      ∧ ∀ (post_max_length : Z) (text : str),
          render_user_prompt kv.2 post_max_length text
          = before ++ length_phrase post_max_length ++ after
            ++ replace default_length_phrase (length_phrase post_max_length) text)
    STYLES.
Proof.
  apply Forall_forall. intros kv Hin.
  pose proof (STYLES_forall _ templates_framed kv Hin) as H.
  apply bool_decide_eq_true in H as [[before after] H].
  exists before, after. split.
  - by apply (render_user_prompt_frame kv.2 before after 0 []).
  - intros n text. by apply render_user_prompt_frame.
Qed.

Example user_prompt_example :
  render_user_prompt (default (Build_Style [] [] [] [] [] []) (snd <$> head STYLES)) 1200
    (py "GPT: максимум 800 символов!")
  = py "На основе этого текста напиши короткий ироничный пост для социальных сетей (максимум 1200 символов). Пост должен быть остроумным, интересным и цепляющим внимание."
    ++ [NEWLINE; NEWLINE] ++ py "Текст: GPT: максимум 1200 символов!".
Proof. vm_compute. reflexivity. Qed.
